(** * Regulatory message assembly (src/pingan-clients/regulatory.js)

    A shallow embedding of the request side of the regulatory client:
    [padString], the body builder [composeMessageBody] with its inner
    [extract], the two header builders, the constructor of
    [RegulatoryMessage] and its lazy getters.

    JavaScript strings are sequences of code units; they are modelled by
    [string], one character for one code unit (those below 0x100), and
    [String.length] plays the role of [.length].  The operations of the
    file on strings (length, slice, substr, concatenation, the digit
    test) never look inside a code unit.  The libraries the file imports
    (iconv-lite, dateformat, the Buffer constructor) and the schema
    table [api.request] of ./regulatory-description are parameters of
    the development. *)

From Stdlib Require Import Ascii String DecimalString NArith Arith Lia.
From Stdlib Require Import Strings.Byte.
From stdpp Require Import gmap strings list fin_maps.

(** ** JavaScript primitives used by the file *)

Module JS.

(** The values that reach [padString], [extract] and string
    concatenation: strings, and numbers that are non-negative integers
    (a Buffer length, a numeric parameter).  Other values ([null],
    [undefined], objects) are outside this universe: what the file does
    on them, a TypeError at [hasOwnProperty] or at [.length] for
    instance, is not modelled, and no statement below speaks of them. *)
Inductive value :=
| VStr (s : string)
| VNum (n : N).


(** [v.toString()], also the coercion done by [v + '&'] and by
    [RegExp.prototype.test].  For a number it is the decimal
    numeral, as JavaScript prints a [safe_integer]; statements about
    the digits of a number carry that bound. *)
Definition toString (v : value) : string :=
  match v with
  | VStr s => s
  | VNum n => NilZero.string_of_uint (N.to_uint n)
  end.

(** Truthiness: the empty string and the number 0 are falsy. *)
Definition truthy (v : value) : bool :=
  match v with
  | VStr EmptyString => false
  | VStr (String _ _) => true
  | VNum n => negb (N.eqb n 0)
  end.

(** [s.slice(0, 1)]. *)
Definition slice_0_1 (s : string) : string :=
  match s with
  | EmptyString => EmptyString
  | String c _ => String c EmptyString
  end.

(** [s.substr(start)] for a non-negative [start]: the characters from
    index [start] to the end. *)
Fixpoint substr (s : string) (start : nat) {struct start} : string :=
  match start, s with
  | O, _ => s
  | S _, EmptyString => EmptyString
  | S k, String _ rest => substr rest k
  end.

(** [k] copies of [sep] in a row. *)
Fixpoint copies (k : nat) (sep : string) : string :=
  match k with
  | O => EmptyString
  | S k' => sep +:+ copies k' sep
  end.

(** [Array(n).join(sep)]: [n] empty slots joined by [sep], that is
    [n - 1] copies of [sep] (none when [n] is 0). *)
Definition Array_join (n : nat) (sep : string) : string :=
  copies (n - 1) sep.

(** [/^\d+$/.test(s)]. *)
Definition is_digit (c : ascii) : bool :=
  let n := nat_of_ascii c in (48 <=? n) && (n <=? 57).

Fixpoint all_digits (s : string) : bool :=
  match s with
  | EmptyString => true
  | String c rest => is_digit c && all_digits rest
  end.

Definition test_digits (s : string) : bool :=
  match s with
  | EmptyString => false
  | String _ _ => all_digits s
  end.

End JS.
Import JS.

(** ** padString (lines 32-43) *)

Definition padString (string : value) (width : nat)
    (spacer : option String.string) : String.string :=
  let spacer :=
    match spacer with
    | Some (String c rest) => slice_0_1 (String c rest)
    | Some EmptyString | None => "0"
    end in
  let string := toString string in
  if String.length string =? width then string
  else if width <? String.length string
       then substr string (String.length string - width)
       else Array_join (width + 1 - String.length string) spacer +:+ string.

(** ** Field descriptors, schemas and parameter sets

    The table ./regulatory-description is not part of this file; its
    entries are known through what [composeMessageBody] reads of them:
    a descriptor's [key], [required], [default], [type] and [length],
    and whether an entry of a schema is an array of descriptors. *)

(** Modelled from the spec: the declaration of a descriptor's [type] in
    ./regulatory-description is missing; the only validation class is
    the digits-only string, which the code selects by
    [keyObject.type === String]; any other [type] is [TypeOther]. *)
Inductive FieldType := TypeString | TypeOther.

(** Modelled from the spec: the descriptors of ./regulatory-description
    are missing; a Field Descriptor has the members [key], [required],
    [default] ([None] when it has none), [type] and [length], the ones
    [extract] reads. *)
Module KeyObject.
Record t := {
  key : string;
  required : bool;
  default : option value;
  type : FieldType;
  length : nat
}.
End KeyObject.

(** Modelled from the spec: the schemas of ./regulatory-description are
    missing; an entry of [api.request[functionCode]] is either a scalar
    Field Descriptor or a Repeating Group, an array of descriptors
    ([key instanceof Array]). *)
Inductive Key :=
| Scalar (key : KeyObject.t)
| Group (key : list KeyObject.t).

(** [paramsList]: its own scalar properties, and apart from them its
    [list] member when it has one that can be iterated ([None]: no such
    member, or a value that is not iterable).  The entries of the list
    are objects of scalar properties. *)
Module ParamsList.
Record t := {
  props : gmap string value;
  list : option (list (gmap string value))
}.
End ParamsList.

Record ClientConfig := {
  marketId : string;
  serviceType : string;
  macAddress : string;
  dateTimeFormat : string;
  defaultResponseCode : string;
  conFlag : string;
  countId : string
}.

(** ** Exceptions and results *)

Inductive exn :=
| Error (message : string)
| TypeError.

Inductive result (A : Type) :=
| Ok (a : A)
| Throw (e : exn).
Arguments Ok {A} a.
Arguments Throw {A} e.

Definition bind {A B} (r : result A) (k : A -> result B) : result B :=
  match r with
  | Ok a => k a
  | Throw e => Throw e
  end.

Declare Scope result_scope.
Delimit Scope result_scope with result.
Notation "x <- r ; k" := (bind r (fun x => k))
  (at level 100, r at next level, right associativity) : result_scope.

(** The four messages of the file, as the single-quoted literals
    evaluate: the text between the quotes, character for character. *)
Definition InvalidFunctionCode_message : string :=
  "[PINGAN] Pingan Invalid Function Code".
Definition MissingKey_message : string :=
  "[PINGAN] Missing key ${keyObject.key} for function " +:+
  "${self._functionCode}".
Definition IncorrectFormat_message : string :=
  "[PINGAN] Incorrect key ${keyObject.key} format for " +:+
  "function ${self._functionCode}".
Definition KeyOverflow_message : string :=
  "[PINGAN] Key ${keyObject.key} overflow for function " +:+
  "${self._functionCode}".

(** The names the specification gives to these errors. *)
Definition UnknownFunctionCode : exn := Error InvalidFunctionCode_message.
Definition MissingRequiredField : exn := Error MissingKey_message.
Definition InvalidFieldFormat : exn := Error IncorrectFormat_message.
Definition FieldOverflow : exn := Error KeyOverflow_message.

(** ** extract (lines 81-101) *)

Definition hasOwnProperty (dataObject : gmap string value) (k : string)
  : bool :=
  match dataObject !! k with
  | Some _ => true
  | None => false
  end.

(** [value.length > n]: a number has no [length], and
    [undefined > n] is false. *)
Definition length_gt (v : value) (n : nat) : bool :=
  match v with
  | VStr s => n <? String.length s
  | VNum _ => false
  end.

(** [keyObject.default || '']. *)
Definition default_or_empty (d : option value) : value :=
  match d with
  | Some v => if truthy v then v else VStr ""
  | None => VStr ""
  end.

Definition extract (keyObject : KeyObject.t) (dataObject : gmap string value)
  : result value :=
  if KeyObject.required keyObject
     && negb (hasOwnProperty dataObject (KeyObject.key keyObject))
  then Throw (Error MissingKey_message)
  else
    match dataObject !! KeyObject.key keyObject with
    | None => Ok (default_or_empty (KeyObject.default keyObject))
    | Some value =>
        if match KeyObject.type keyObject with
           | TypeString => negb (test_digits (toString value))
           | TypeOther => false
           end
        then Throw (Error IncorrectFormat_message)
        else if length_gt value (KeyObject.length keyObject)
        then Throw (Error KeyOverflow_message)
        else Ok value
    end.

(** ** The loops of composeMessageBody (lines 105-115) *)

Local Open Scope result_scope.

(** [for (let subKey of key) messageBody += extract(subKey, listItem) + '&'] *)
Fixpoint for_subKeys (key : list KeyObject.t) (listItem : gmap string value)
    (messageBody : string) : result string :=
  match key with
  | [] => Ok messageBody
  | subKey :: key' =>
      v <- extract subKey listItem;
      for_subKeys key' listItem (messageBody +:+ (toString v +:+ "&"))
  end.

(** [for (let listItem of this._paramsList.list) ...] *)
Fixpoint for_listItems (items : list (gmap string value))
    (key : list KeyObject.t) (messageBody : string) : result string :=
  match items with
  | [] => Ok messageBody
  | listItem :: items' =>
      messageBody' <- for_subKeys key listItem messageBody;
      for_listItems items' key messageBody'
  end.

(** [for (let key of keyDictionary) ...].  [this._paramsList] is
    [None] while the constructor has not stored it; reading a property
    of it then raises a TypeError, as does iterating a [list] member
    that is missing or not iterable. *)
Fixpoint for_keys (keyDictionary : list Key)
    (_paramsList : option ParamsList.t) (messageBody : string)
  : result string :=
  match keyDictionary with
  | [] => Ok messageBody
  | Group key :: rest =>
      match _paramsList with
      | None => Throw TypeError
      | Some paramsList =>
          match ParamsList.list paramsList with
          | None => Throw TypeError
          | Some items =>
              messageBody' <- for_listItems items key messageBody;
              for_keys rest _paramsList messageBody'
          end
      end
  | Scalar key :: rest =>
      match _paramsList with
      | None => Throw TypeError
      | Some paramsList =>
          v <- extract key (ParamsList.props paramsList);
          for_keys rest _paramsList (messageBody +:+ (toString v +:+ "&"))
      end
  end.

(** ** The message object

    The fields of [this].  The first three are assigned by lines 55-62,
    before anything can throw; the others are [undefined] ([None]) until
    the constructor or a getter assigns them. *)
Record RegulatoryMessage := {
  _clientConfig : ClientConfig;
  _clientLogId : string;
  _functionCode : string;
  _paramsList : option ParamsList.t;
  _messageBody : option string;
  _messageBodyBuffer : option (list byte);
  _messageHead : option string;
  _networkHead : option string
}.

Definition set_paramsList (p : ParamsList.t) (this : RegulatoryMessage) :=
  {| _clientConfig := _clientConfig this; _clientLogId := _clientLogId this;
     _functionCode := _functionCode this; _paramsList := Some p;
     _messageBody := _messageBody this;
     _messageBodyBuffer := _messageBodyBuffer this;
     _messageHead := _messageHead this; _networkHead := _networkHead this |}.

Definition set_messageBody (b : string) (this : RegulatoryMessage) :=
  {| _clientConfig := _clientConfig this; _clientLogId := _clientLogId this;
     _functionCode := _functionCode this; _paramsList := _paramsList this;
     _messageBody := Some b;
     _messageBodyBuffer := _messageBodyBuffer this;
     _messageHead := _messageHead this; _networkHead := _networkHead this |}.

Definition set_messageBodyBuffer (b : list byte) (this : RegulatoryMessage) :=
  {| _clientConfig := _clientConfig this; _clientLogId := _clientLogId this;
     _functionCode := _functionCode this; _paramsList := _paramsList this;
     _messageBody := _messageBody this;
     _messageBodyBuffer := Some b;
     _messageHead := _messageHead this; _networkHead := _networkHead this |}.

Definition set_messageHead (h : string) (this : RegulatoryMessage) :=
  {| _clientConfig := _clientConfig this; _clientLogId := _clientLogId this;
     _functionCode := _functionCode this; _paramsList := _paramsList this;
     _messageBody := _messageBody this;
     _messageBodyBuffer := _messageBodyBuffer this;
     _messageHead := Some h; _networkHead := _networkHead this |}.

Definition set_networkHead (h : string) (this : RegulatoryMessage) :=
  {| _clientConfig := _clientConfig this; _clientLogId := _clientLogId this;
     _functionCode := _functionCode this; _paramsList := _paramsList this;
     _messageBody := _messageBody this;
     _messageBodyBuffer := _messageBodyBuffer this;
     _messageHead := _messageHead this; _networkHead := Some h |}.

(** Methods and getters read and assign the fields of [this] and may
    throw: a computation returns its outcome together with the object
    as it stands at that point. *)
Definition M (A : Type) : Type :=
  RegulatoryMessage -> result A * RegulatoryMessage.

Definition ret {A} (a : A) : M A := fun this => (Ok a, this).

Definition throw {A} (e : exn) : M A := fun this => (Throw e, this).

Definition mbind {A B} (m : M A) (k : A -> M B) : M B :=
  fun this =>
    match m this with
    | (Ok a, this') => k a this'
    | (Throw e, this') => (Throw e, this')
    end.

Definition read {A} (field : RegulatoryMessage -> A) : M A :=
  fun this => (Ok (field this), this).

Definition assign (set : RegulatoryMessage -> RegulatoryMessage) : M unit :=
  fun this => (Ok tt, set this).

Definition lift {A} (f : RegulatoryMessage -> result A) : M A :=
  fun this => (f this, this).

Declare Scope this_scope.
Delimit Scope this_scope with this.
Notation "x <~ m ; k" := (mbind m (fun x => k))
  (at level 100, m at next level, right associativity) : this_scope.
Notation "m ;; k" := (mbind m (fun _ => k))
  (at level 100, right associativity) : this_scope.

(** A cached string field is reused when it is truthy: assigned and
    not the empty string. *)
Definition truthy_field (f : option string) : bool :=
  match f with
  | Some s => truthy (VStr s)
  | None => false
  end.

(** [Buffer.concat(list, totalLength)]: the buffers in a row, cut or
    zero-filled to [totalLength] bytes. *)
Definition Buffer_concat (bufs : list (list byte)) (totalLength : nat)
  : list byte :=
  take totalLength (concat bufs ++ replicate totalLength x00).

(** The spacer [padString] pads with: the first character of a
    non-empty argument, ['0'] otherwise. *)
Definition spacer_of (spacer : option string) : string :=
  match spacer with
  | Some (String c _) => String c EmptyString
  | Some EmptyString | None => "0"
  end.

(** ** The body as the specification describes it

    These definitions follow the specification's words, not the code:
    the fields of a body, the entries a schema expands to, their
    number, and the values joined by ['&'].  The theorems compare them
    with what [composeMessageBody] computes. *)

(** The fields of a body: the chunks that end in an ['&'], in order
    (characters after the last ['&'] belong to no field). *)
Fixpoint fields (body : string) : list string :=
  match body with
  | EmptyString => []
  | String c rest =>
      if Ascii.eqb c "&" then EmptyString :: fields rest
      else match fields rest with
           | [] => []
           | f :: fs => String c f :: fs
           end
  end.

Fixpoint no_amp (s : string) : bool :=
  match s with
  | EmptyString => true
  | String c rest => negb (Ascii.eqb c "&") && no_amp rest
  end.

(** The entries a schema expands to against a parameter set, in schema
    order: a descriptor with the object it is looked up in; one per
    scalar entry, and for a group one per sub-descriptor per entry of
    the list. *)
Definition expand_item (key : list KeyObject.t) (listItem : gmap string value)
  : list (KeyObject.t * gmap string value) :=
  map (fun subKey => (subKey, listItem)) key.

Definition expand_key (paramsList : ParamsList.t) (k : Key)
  : list (KeyObject.t * gmap string value) :=
  match k with
  | Scalar key => [(key, ParamsList.props paramsList)]
  | Group key =>
      match ParamsList.list paramsList with
      | Some items => concat (map (expand_item key) items)
      | None => []
      end
  end.

Definition expand (keyDictionary : list Key) (paramsList : ParamsList.t)
  : list (KeyObject.t * gmap string value) :=
  concat (map (expand_key paramsList) keyDictionary).

(** Number of scalar entries plus number of expanded group entries. *)
Definition entry_count (keyDictionary : list Key) (paramsList : ParamsList.t)
  : nat :=
  list_sum
    (map (fun k =>
            match k with
            | Scalar _ => 1
            | Group key =>
                match ParamsList.list paramsList with
                | Some items => length items * length key
                | None => 0
                end
            end) keyDictionary).

(** An expanded entry extracts to a value. *)
Definition extracts_to (entry : KeyObject.t * gmap string value) (v : value)
  : Prop :=
  extract (fst entry) (snd entry) = Ok v.

(** The values in a row, each followed by one ['&']. *)
Fixpoint join_amp (values : list value) : string :=
  match values with
  | [] => EmptyString
  | v :: vs => (toString v +:+ "&") +:+ join_amp vs
  end.

(** The expanded entries taken one after the other: each is extracted
    and appended with its ['&']; the first one that throws ends the
    walk. *)
Fixpoint for_entries (entries : list (KeyObject.t * gmap string value))
    (messageBody : string) : result string :=
  match entries with
  | [] => Ok messageBody
  | entry :: rest =>
      v <- extract (fst entry) (snd entry);
      for_entries rest (messageBody +:+ (toString v +:+ "&"))
  end.

(** The list can be iterated if the schema has a group. *)
Definition iterable_if_group (keyDictionary : list Key)
    (paramsList : ParamsList.t) : Prop :=
  (exists items, ParamsList.list paramsList = Some items)
  \/ (forall key, ~ In (Group key) keyDictionary).

(** The descriptors of a schema, those of its groups included. *)
Definition descriptors (keyDictionary : list Key) : list KeyObject.t :=
  concat
    (map (fun k => match k with
                   | Scalar key => [key]
                   | Group key => key
                   end) keyDictionary).

(** The value an entry's key is bound to in its object. *)
Definition bound_to (entry : KeyObject.t * gmap string value) (v : value)
  : Prop :=
  snd entry !! KeyObject.key (fst entry) = Some v.

(** ** RegulatoryClient: the constructor (lines 221-243)

    [config] is the caller's object.  The pool the constructor creates
    belongs to the jackpot library; what the constructor computes itself
    is the check of the three mandatory keys and [this._clientConfig].
    The header builders only concatenate the members of
    [_clientConfig], so each member is kept in the string form that
    concatenation gives it. *)
Definition CannotInitialize_message : string :=
  "[PINGAN] Cannot initialize retulatory client.".

(** [x || d], in string form. *)
Definition or_default (x : option value) (d : string) : string :=
  match x with
  | Some v => if truthy v then toString v else d
  | None => d
  end.

(** The string form of a member that is copied as it is; a missing one
    is [undefined]. *)
Definition member_string (x : option value) : string :=
  match x with
  | Some v => toString v
  | None => "undefined"
  end.

Definition RegulatoryClient_constructor (config : gmap string value)
  : result ClientConfig :=
  if negb (hasOwnProperty config "port" && hasOwnProperty config "server"
           && hasOwnProperty config "marketId")
  then Throw (Error CannotInitialize_message)
  else
    Ok {| marketId := member_string (config !! "marketId");
          serviceType := or_default (config !! "serviceType") "01";
          macAddress := or_default (config !! "macAddress") "                ";
          dateTimeFormat :=
            or_default (config !! "dateTimeFormat") "yyyyMMddHHmmss";
          defaultResponseCode :=
            or_default (config !! "defaultResponseCode") "999999";
          conFlag := or_default (config !! "conFlag") "0";
          countId := or_default (config !! "countId") "PA001" |}.

(** ** What a message names

    [haystack.includes(needle)]: [needle] occurs in [haystack]. *)
Fixpoint includes (needle haystack : string) : bool :=
  String.prefix needle haystack
  || match haystack with
     | EmptyString => false
     | String _ rest => includes needle rest
     end.

(** ** Header layouts

    The two headers as the specification lays them out, field after
    field, given the rendered timestamp and the rendered length. *)
Definition messageHead_layout (config : ClientConfig)
    (functionCode clientLogId timestamp lengthField : string) : string :=
  functionCode +:+ serviceType config +:+ macAddress config +:+ timestamp
  +:+ defaultResponseCode config +:+ copies 42 " " +:+ conFlag config
  +:+ lengthField +:+ countId config +:+ clientLogId +:+ marketId config.

Definition networkHead_layout (config : ClientConfig)
    (clientLogId timestamp lengthField : string) : string :=
  "A001130101" +:+ marketId config +:+ copies 16 " " +:+ lengthField
  +:+ "000000" +:+ countId config +:+ serviceType config +:+ timestamp
  +:+ clientLogId +:+ defaultResponseCode config +:+ copies 100 " "
  +:+ conFlag config +:+ "000" +:+ "0" +:+ "0" +:+ copies 12 " "
  +:+ copies 11 "0".

(** ** Instances for evaluation

    Concrete stand-ins for the imported libraries and the schema table,
    used where a statement is evaluated on an input. *)
Module Sample.

(** An instant is given by the number whose digits the mask renders;
    the rendering has the width of the mask. *)
Definition dateFormat (now : N) (mask : string) : string :=
  padString (VNum now) (String.length mask) (Some "0").

(** GBK on the code units used below: one byte for a code unit under
    0x80, the two-byte codes A1E3 and A1C1 for U+00B0 and U+00D7, and
    ['?'] for a code unit the table does not know. *)
Definition gbk_unit (c : ascii) : list byte :=
  if nat_of_ascii c <? 128 then [byte_of_ascii c]
  else if Ascii.eqb c "176" then [xa1; xe3]
  else if Ascii.eqb c "215" then [xa1; xc1]
  else [x3f].

Fixpoint gbkEncode (s : string) : list byte :=
  match s with
  | EmptyString => []
  | String c rest => gbk_unit c ++ gbkEncode rest
  end.

(** UTF-8 of code units below 0x100. *)
Definition utf8_unit (c : ascii) : list byte :=
  let n := nat_of_ascii c in
  if n <? 128 then [byte_of_ascii c]
  else [byte_of_ascii (ascii_of_nat (192 + n / 64));
        byte_of_ascii (ascii_of_nat (128 + n mod 64))].

Fixpoint Buffer_from (s : string) : list byte :=
  match s with
  | EmptyString => []
  | String c rest => utf8_unit c ++ Buffer_from rest
  end.

(** The defaults of [RegulatoryClient] (lines 234-242). *)
Definition clientConfig : ClientConfig :=
  {| marketId := "3066";
     serviceType := "01";
     macAddress := "                ";
     dateTimeFormat := "yyyyMMddHHmmss";
     defaultResponseCode := "999999";
     conFlag := "0";
     countId := "PA001" |}.

Definition amt : KeyObject.t :=
  {| KeyObject.key := "amt"; KeyObject.required := true;
     KeyObject.default := None; KeyObject.type := TypeString;
     KeyObject.length := 10 |}.

Definition acct : KeyObject.t :=
  {| KeyObject.key := "acct"; KeyObject.required := true;
     KeyObject.default := None; KeyObject.type := TypeString;
     KeyObject.length := 6 |}.

Definition memo : KeyObject.t :=
  {| KeyObject.key := "memo"; KeyObject.required := false;
     KeyObject.default := Some (VStr "n/a"); KeyObject.type := TypeOther;
     KeyObject.length := 4 |}.

Definition unit_ : KeyObject.t :=
  {| KeyObject.key := "unit"; KeyObject.required := false;
     KeyObject.default := None; KeyObject.type := TypeOther;
     KeyObject.length := 1 |}.

Definition qty : KeyObject.t :=
  {| KeyObject.key := "qty"; KeyObject.required := false;
     KeyObject.default := Some (VStr "none"); KeyObject.type := TypeString;
     KeyObject.length := 2 |}.

Definition id : KeyObject.t :=
  {| KeyObject.key := "id"; KeyObject.required := true;
     KeyObject.default := None; KeyObject.type := TypeString;
     KeyObject.length := 4 |}.

(** Modelled from the spec: the table of ./regulatory-description is
    missing.  Schema 0001 is the one of the specification's end-to-end
    scenario (one required digits field [amt] of width 10); 0002, 0003
    and 0004 are further schemas of the same shape, without a group,
    with scalars before a group, and with a group only. *)
Definition api_request : gmap string (list Key) :=
  <["0001" := [Scalar amt]]>
  (<["0002" := [Scalar memo; Scalar unit_]]>
  (<["0003" := [Scalar acct; Scalar amt; Group [id; qty]]]>
  (<["0004" := [Group [id; qty]]]> ∅))).

Definition params (l : list (string * value)) : gmap string value :=
  list_to_map l.

Definition paramsList (l : list (string * value))
    (items : option (list (gmap string value))) : ParamsList.t :=
  {| ParamsList.props := params l; ParamsList.list := items |}.


End Sample.

(** Modelled from the spec: the table of ./regulatory-description is
    missing.  The table of [Sample] with one more schema, 0005, in
    which a group comes before a scalar entry. *)
Module SampleOrder.

Definition api_request : gmap string (list Key) :=
  <["0005" := [Group [Sample.id; Sample.qty]; Scalar Sample.amt]]>
    Sample.api_request.

End SampleOrder.

(** A caller's configuration object for [RegulatoryClient]. *)
Module SampleClient.

Definition config : gmap string value :=
  list_to_map
    [("port", VNum 7072); ("server", VStr "10.0.0.1");
     ("marketId", VNum 3066); ("countId", VStr "")].

Definition no_server : gmap string value :=
  list_to_map [("port", VNum 7072); ("marketId", VNum 3066)].

Definition Buffer_toString (data : list byte) : string :=
  string_of_list_byte data.

End SampleClient.

Section Message.

(** What the file imports:
    - [dateFormat(new Date(), mask)], as a function of the instant the
      clock shows when [new Date()] runs;
    - [iconv.encode(string, 'gbk')];
    - [Buffer.from(string)];
    - the table [api.request], from function code to schema. *)
Variable Time : Type.
Variable dateFormat : Time -> string -> string.
Variable gbkEncode : string -> list byte.
Variable Buffer_from : string -> list byte.
Variable api_request : gmap string (list Key).

Local Open Scope this_scope.

(** [api.request.hasOwnProperty(functionCode)]. *)
Definition hasOwnProperty_request (functionCode : string) : bool :=
  match api_request !! functionCode with
  | Some _ => true
  | None => false
  end.

(** composeMessageBody (lines 78-117).  It assigns nothing. *)
Definition composeMessageBody (this : RegulatoryMessage) : result string :=
  match api_request !! _functionCode this with
  | None => Throw TypeError
  | Some keyDictionary => for_keys keyDictionary (_paramsList this) ""
  end.

(** get messageBody (lines 173-178). *)
Definition messageBody : M string :=
  cached <~ read _messageBody;
  match cached with
  | Some body =>
      if truthy (VStr body) then ret body
      else (body' <~ lift composeMessageBody;
            assign (set_messageBody body');; ret body')
  | None =>
      body' <~ lift composeMessageBody;
      assign (set_messageBody body');; ret body'
  end.

(** get messageBodyBuffer (lines 180-185).  A Buffer is an object, so
    an assigned one is truthy even when empty. *)
Definition messageBodyBuffer : M (list byte) :=
  cached <~ read _messageBodyBuffer;
  match cached with
  | Some buf => ret buf
  | None =>
      body <~ messageBody;
      assign (set_messageBodyBuffer (gbkEncode body));;
      ret (gbkEncode body)
  end.

(** composeMessageHead (lines 123-139); [now] is what [new Date()]
    yields at line 129. *)
Definition composeMessageHead (now : Time) : M string :=
  config <~ read _clientConfig;
  functionCode <~ read _functionCode;
  clientLogId <~ read _clientLogId;
  let messageHead := "" in
  let messageHead := messageHead +:+ functionCode in
  let messageHead := messageHead +:+ serviceType config in
  let messageHead := messageHead +:+ macAddress config in
  let messageHead := messageHead +:+ dateFormat now (dateTimeFormat config) in
  let messageHead := messageHead +:+ defaultResponseCode config in
  let messageHead := messageHead +:+ Array_join 43 " " in
  let messageHead := messageHead +:+ conFlag config in
  buf <~ messageBodyBuffer;
  let messageHead :=
    messageHead +:+ padString (VNum (N.of_nat (length buf))) 8 (Some "0") in
  let messageHead := messageHead +:+ countId config in
  let messageHead := messageHead +:+ clientLogId in
  let messageHead := messageHead +:+ marketId config in
  ret messageHead.

(** composeNetworkHead (lines 141-163); [now] is what [new Date()]
    yields at line 151. *)
Definition composeNetworkHead (now : Time) : M string :=
  config <~ read _clientConfig;
  clientLogId <~ read _clientLogId;
  let networkHead := "" in
  let networkHead := networkHead +:+ "A001130101" in
  let networkHead := networkHead +:+ marketId config in
  let networkHead := networkHead +:+ "                " in
  buf <~ messageBodyBuffer;
  let networkHead :=
    networkHead +:+ padString (VNum (N.of_nat (length buf))) 10 (Some "0") in
  let networkHead := networkHead +:+ "000000" in
  let networkHead := networkHead +:+ countId config in
  let networkHead := networkHead +:+ serviceType config in
  let networkHead := networkHead +:+ dateFormat now (dateTimeFormat config) in
  let networkHead := networkHead +:+ clientLogId in
  let networkHead := networkHead +:+ defaultResponseCode config in
  let networkHead := networkHead +:+ Array_join 101 " " in
  let networkHead := networkHead +:+ conFlag config in
  let networkHead := networkHead +:+ "000" in
  let networkHead := networkHead +:+ "0" in
  let networkHead := networkHead +:+ "0" in
  let networkHead := networkHead +:+ Array_join 13 " " in
  let networkHead := networkHead +:+ Array_join 12 "0" in
  ret networkHead.

(** get messageHead (lines 187-192): recomposed when the stored value
    is truthy, returned as it is otherwise. *)
Definition messageHead (now : Time) : M (option string) :=
  cached <~ read _messageHead;
  if truthy_field cached
  then (head <~ composeMessageHead now;
        assign (set_messageHead head);; read _messageHead)
  else ret cached.

(** get networkHead (lines 194-199). *)
Definition networkHead (now : Time) : M (option string) :=
  cached <~ read _networkHead;
  if truthy_field cached
  then (head <~ composeNetworkHead now;
        assign (set_networkHead head);; read _networkHead)
  else ret cached.

(** [Buffer.from(x)]: a TypeError on [undefined]. *)
Definition Buffer_from_field (x : option string) : M (list byte) :=
  match x with
  | Some s => ret (Buffer_from s)
  | None => throw TypeError
  end.

(** get buffer (lines 201-211); the two instants are those of the
    [new Date()] calls reached through [networkHead] and [messageHead],
    in that order. *)
Definition buffer (now_network now_message : Time) : M (list byte) :=
  nh <~ networkHead now_network;
  networkHeadBuffer <~ Buffer_from_field nh;
  mh <~ messageHead now_message;
  messageHeadBuffer <~ Buffer_from_field mh;
  body <~ messageBodyBuffer;
  let totalLength :=
    length networkHeadBuffer + length messageHeadBuffer + length body in
  body' <~ messageBodyBuffer;
  ret (Buffer_concat [networkHeadBuffer; messageHeadBuffer; body']
         totalLength).

(** The object after lines 55-62. *)
Definition this_after_line_62 (clientConfig : ClientConfig)
    (clientLogId : value) (functionCode : string) : RegulatoryMessage :=
  {| _clientConfig := clientConfig;
     _clientLogId := padString clientLogId 20 (Some "0");
     _functionCode := functionCode;
     _paramsList := None;
     _messageBody := None;
     _messageBodyBuffer := None;
     _messageHead := None;
     _networkHead := None |}.

(** constructor (lines 53-72): the outcome, and the object as it stands
    when the constructor returns or throws.  [now_message] and
    [now_network] are the instants read by the two header builders. *)
Definition constructor (now_message now_network : Time)
    (clientConfig : ClientConfig) (clientLogId : value)
    (functionCode : string) (paramsList : ParamsList.t)
  : result unit * RegulatoryMessage :=
  ((if negb (hasOwnProperty_request functionCode)
    then throw (Error InvalidFunctionCode_message)
    else ret tt);;
   assign (set_paramsList paramsList);;
   body <~ lift composeMessageBody;
   assign (set_messageBody body);;
   head <~ composeMessageHead now_message;
   assign (set_messageHead head);;
   head' <~ composeNetworkHead now_network;
   assign (set_networkHead head'))
    (this_after_line_62 clientConfig clientLogId functionCode).

(** [new RegulatoryMessage(...)]: the object, or the exception. *)
Definition new_RegulatoryMessage (now_message now_network : Time)
    (clientConfig : ClientConfig) (clientLogId : value)
    (functionCode : string) (paramsList : ParamsList.t)
  : result RegulatoryMessage :=
  match constructor now_message now_network clientConfig clientLogId
          functionCode paramsList with
  | (Ok _, this) => Ok this
  | (Throw e, _) => Throw e
  end.

(** The length both headers carry: the byte length of the encoded body,
    as the number [padString] receives. *)
Definition body_byte_length (body : string) : value :=
  VNum (N.of_nat (length (gbkEncode body))).

(** The body of [this] is in place: [_messageBody] holds what
    [composeMessageBody] yields, and [_messageBodyBuffer] is unassigned
    or holds its encoding. *)
Definition body_in_place (body : string) (this : RegulatoryMessage) : Prop :=
  composeMessageBody this = Ok body
  /\ _messageBody this = Some body
  /\ (_messageBodyBuffer this = None
      \/ _messageBodyBuffer this = Some (gbkEncode body)).

(** The state of a constructed message: the body and its buffer are in
    place and both headers hold a non-empty string. *)
Definition constructed (body : string) (this : RegulatoryMessage) : Prop :=
  body_in_place body this
  /\ _messageBodyBuffer this = Some (gbkEncode body)
  /\ truthy_field (_messageHead this) = true
  /\ truthy_field (_networkHead this) = true.

(** The object when [composeMessageBody] has returned [body] at line 69. *)
Definition this_after_line_69 (clientConfig : ClientConfig)
    (clientLogId : value) (functionCode : string)
    (paramsList : ParamsList.t) (body : string) : RegulatoryMessage :=
  set_messageBody body
    (set_paramsList paramsList
       (this_after_line_62 clientConfig clientLogId functionCode)).

(** ** RegulatoryClient: sendMessage (lines 245-269)

    The pool, the connection, the console and the caller's callback are
    outside the file; [sendMessage] and the handlers it installs are
    modelled by what they do to them, in order.  [PoolError] is what the
    pool passes as [err]; [Buffer_toString] is [data.toString()]. *)
Variable PoolError : Type.
Variable Buffer_toString : list byte -> string.

Inductive effect :=
| pool_pull
| callback_error (err : PoolError)
| connection_write (bytes : list byte)
| console_log (line : string)
| connection_on (event : string)
| callback_data (text : string)
| connection_end.

(** Lines 246-249: the message is constructed, then a connection is
    asked of the pool.  A constructor that throws ends the call there. *)
Definition sendMessage (now_message now_network : Time)
    (_clientConfig : ClientConfig) (clientLogId : value)
    (functionCode : string) (paramsList : ParamsList.t)
  : result (RegulatoryMessage * list effect) :=
  (message <- new_RegulatoryMessage now_message now_network _clientConfig
                clientLogId functionCode paramsList;
   Ok (message, [pool_pull]))%result.

(** Lines 249-268: the handler given to [pool.pull], run with what the
    pool yields, a truthy [err] or a connection.  [message.buffer] is
    read here, at the instants [now_network] and [now_message]. *)
Definition pull_handler (err : option PoolError)
    (now_network now_message : Time) (message : RegulatoryMessage)
  : result (list effect) * RegulatoryMessage :=
  match err with
  | Some e => (Ok [callback_error e], message)
  | None =>
      match buffer now_network now_message message with
      | (Ok bytes, message') =>
          (Ok [connection_write bytes;
               console_log "Connection Initialized";
               connection_on "data";
               connection_on "end"], message')
      | (Throw e, message') => (Throw e, message')
      end
  end.

(** Lines 259-262: the handler of ['data']. *)
Definition data_handler (data : list byte) : list effect :=
  [callback_data (Buffer_toString data); connection_end].

(** Lines 265-267: the handler of ['end']. *)
Definition end_handler : list effect :=
  [console_log "Connection Terminated"].

(** ** Strings *)

Lemma append_cons (c : ascii) (a b : string) :
  String c a +:+ b = String c (a +:+ b).
Proof. reflexivity. Qed.

Lemma append_empty_l (a : string) : "" +:+ a = a.
Proof. reflexivity. Qed.

Lemma length_append (a b : string) :
  String.length (a +:+ b) = String.length a + String.length b.
Proof.
  induction a as [|c a IH]; [reflexivity|].
  rewrite append_cons. simpl. now rewrite IH.
Qed.

Lemma append_assoc (a b c : string) : (a +:+ b) +:+ c = a +:+ (b +:+ c).
Proof.
  induction a as [|x a IH]; [reflexivity|].
  rewrite !append_cons. now rewrite IH.
Qed.

Lemma append_empty_r (a : string) : a +:+ "" = a.
Proof.
  induction a as [|x a IH]; [reflexivity|].
  rewrite append_cons. now rewrite IH.
Qed.

Lemma length_substr (s : string) (start : nat) :
  String.length (substr s start) = String.length s - start.
Proof.
  revert s; induction start as [|k IH]; intros s.
  - simpl. lia.
  - destruct s as [|c s]; simpl; [reflexivity | apply IH].
Qed.

(** [substr] drops a prefix: what it returns is a suffix of the string. *)
Lemma substr_suffix (s : string) (start : nat) :
  exists dropped, s = dropped +:+ substr s start
                  /\ String.length dropped = Nat.min start (String.length s).
Proof.
  revert s; induction start as [|k IH]; intros s.
  - exists "". split; [reflexivity | reflexivity].
  - destruct s as [|c s]; simpl.
    + exists "". split; reflexivity.
    + destruct (IH s) as (d & Hd & Hl).
      exists (String c d). rewrite append_cons. simpl.
      split; [now rewrite <- Hd | now rewrite Hl].
Qed.

Lemma length_copies (k : nat) (sep : string) :
  String.length (copies k sep) = k * String.length sep.
Proof.
  induction k as [|k IH]; simpl; [reflexivity |].
  rewrite length_append, IH. reflexivity.
Qed.

(** ** padString *)

Lemma length_spacer_of (spacer : option string) :
  String.length (spacer_of spacer) = 1.
Proof. destruct spacer as [[|c r]|]; reflexivity. Qed.

Lemma padString_eq (v : value) (width : nat) (spacer : option string) :
  String.length (toString v) = width -> padString v width spacer = toString v.
Proof.
  intros H. unfold padString.
  apply Nat.eqb_eq in H. now rewrite H.
Qed.

Lemma padString_longer (v : value) (width : nat) (spacer : option string) :
  width < String.length (toString v) ->
  padString v width spacer
  = substr (toString v) (String.length (toString v) - width).
Proof.
  intros H. unfold padString.
  destruct (Nat.eqb_spec (String.length (toString v)) width) as [E|_]; [lia|].
  apply Nat.ltb_lt in H. now rewrite H.
Qed.

Lemma padString_shorter (v : value) (width : nat) (spacer : option string) :
  String.length (toString v) < width ->
  padString v width spacer
  = copies (width - String.length (toString v)) (spacer_of spacer)
    +:+ toString v.
Proof.
  intros H. unfold padString.
  destruct (Nat.eqb_spec (String.length (toString v)) width) as [E|_]; [lia|].
  destruct (Nat.ltb_spec width (String.length (toString v))) as [L|_]; [lia|].
  unfold Array_join.
  replace (width + 1 - String.length (toString v) - 1)
    with (width - String.length (toString v)) by lia.
  destruct spacer as [[|c r]|]; reflexivity.
Qed.

Lemma length_padString (v : value) (width : nat) (spacer : option string) :
  String.length (padString v width spacer) = width.
Proof.
  destruct (Nat.lt_trichotomy (String.length (toString v)) width)
    as [L|[E|G]].
  - rewrite padString_shorter by exact L.
    rewrite length_append, length_copies, length_spacer_of. lia.
  - now rewrite padString_eq.
  - rewrite padString_longer by exact G.
    rewrite length_substr. lia.
Qed.

(** C8: [padString] returns the string form unchanged when its length
    is the width; the trailing [width] characters when it is longer;
    and, when it is shorter, the string form behind as many copies of
    the first character of the spacer argument as are missing.  Also
    pad("12345", 8, "0") = "00012345", pad("123456789", 8, "0") =
    "23456789" and pad("abc", 3, "0") = "abc". *)
Theorem C8_padString_fixed_width :
  (forall v width spacer,
      String.length (toString v) = width ->
      padString v width spacer = toString v)
  /\ (forall v width spacer,
         width < String.length (toString v) ->
         String.length (padString v width spacer) = width
         /\ exists dropped,
             toString v = dropped +:+ padString v width spacer)
  /\ (forall v width c rest,
         String.length (toString v) < width ->
         padString v width (Some (String c rest))
         = copies (width - String.length (toString v)) (String c EmptyString)
           +:+ toString v)
  /\ padString (VStr "12345") 8 (Some "0") = "00012345"
  /\ padString (VStr "123456789") 8 (Some "0") = "23456789"
  /\ padString (VStr "abc") 3 (Some "0") = "abc".
Proof.
  split; [exact padString_eq|].
  split.
  - intros v width spacer H. split; [apply length_padString|].
    rewrite padString_longer by exact H.
    destruct (substr_suffix (toString v) (String.length (toString v) - width))
      as (d & Hd & _).
    now exists d.
  - split; [|repeat split].
    intros v width c rest H. now rewrite padString_shorter.
Qed.

(** ** The body builder *)

Lemma join_amp_app (vs ws : list value) :
  join_amp (vs ++ ws) = join_amp vs +:+ join_amp ws.
Proof.
  induction vs as [|v vs IH]; [reflexivity|].
  simpl. now rewrite IH, !append_assoc.
Qed.

Lemma bind_Ok {A B} (r : result A) (k : A -> result B) (b : B) :
  bind r k = Ok b -> exists a, r = Ok a /\ k a = Ok b.
Proof. destruct r as [a|e]; simpl; [eauto | discriminate]. Qed.

Lemma for_subKeys_Ok key listItem messageBody body :
  for_subKeys key listItem messageBody = Ok body ->
  exists values,
    Forall2 extracts_to (expand_item key listItem) values
    /\ body = messageBody +:+ join_amp values.
Proof.
  revert messageBody.
  induction key as [|subKey key IH]; intros messageBody H; simpl in H.
  - inversion H; subst. exists []. split; [constructor|].
    now rewrite append_empty_r.
  - apply bind_Ok in H as (v & Hv & H).
    apply IH in H as (values & Hvalues & ->).
    exists (v :: values). split.
    + constructor; [exact Hv | exact Hvalues].
    + simpl. now rewrite !append_assoc.
Qed.

Lemma for_listItems_Ok items key messageBody body :
  for_listItems items key messageBody = Ok body ->
  exists values,
    Forall2 extracts_to (concat (map (expand_item key) items)) values
    /\ body = messageBody +:+ join_amp values.
Proof.
  revert messageBody.
  induction items as [|listItem items IH]; intros messageBody H; simpl in H.
  - inversion H; subst. exists []. split; [constructor|].
    now rewrite append_empty_r.
  - apply bind_Ok in H as (body' & Hsub & H).
    apply for_subKeys_Ok in Hsub as (vs & Hvs & ->).
    apply IH in H as (ws & Hws & ->).
    exists (vs ++ ws). split.
    + simpl. now apply Forall2_app.
    + now rewrite join_amp_app, append_assoc.
Qed.

Lemma for_keys_Ok keyDictionary paramsList messageBody body :
  for_keys keyDictionary (Some paramsList) messageBody = Ok body ->
  exists values,
    Forall2 extracts_to (expand keyDictionary paramsList) values
    /\ body = messageBody +:+ join_amp values.
Proof.
  revert messageBody.
  induction keyDictionary as [|k rest IH]; intros messageBody H; simpl in H.
  - inversion H; subst. exists []. split; [constructor|].
    now rewrite append_empty_r.
  - destruct k as [key|key].
    + apply bind_Ok in H as (v & Hv & H).
      apply IH in H as (ws & Hws & ->).
      exists (v :: ws). split.
      * unfold expand. simpl. constructor; [exact Hv | exact Hws].
      * simpl. now rewrite !append_assoc.
    + destruct (ParamsList.list paramsList) as [items|] eqn:Hlist;
        [|discriminate].
      apply bind_Ok in H as (body' & Hitems & H).
      apply for_listItems_Ok in Hitems as (vs & Hvs & ->).
      apply IH in H as (ws & Hws & ->).
      exists (vs ++ ws). split.
      * unfold expand. simpl. rewrite Hlist. now apply Forall2_app.
      * now rewrite join_amp_app, append_assoc.
Qed.

Lemma length_expand_items key (items : list (gmap string value)) :
  length (concat (map (expand_item key) items)) = length items * length key.
Proof.
  induction items as [|i items IH]; [reflexivity|].
  simpl. rewrite length_app, IH. unfold expand_item.
  now rewrite length_map.
Qed.

Lemma length_expand keyDictionary paramsList :
  length (expand keyDictionary paramsList)
  = entry_count keyDictionary paramsList.
Proof.
  unfold expand, entry_count.
  induction keyDictionary as [|k rest IH]; [reflexivity|].
  simpl. rewrite length_app, IH. f_equal.
  destruct k as [key|key]; [reflexivity|]. simpl.
  destruct (ParamsList.list paramsList) as [items|]; [|reflexivity].
  apply length_expand_items.
Qed.

Lemma fields_value (s rest : string) :
  no_amp s = true -> fields (s +:+ "&" +:+ rest) = s :: fields rest.
Proof.
  induction s as [|c s IH]; intros H.
  - reflexivity.
  - simpl in H. apply andb_prop in H as [Hc Hs].
    rewrite append_cons. simpl.
    apply negb_true_iff in Hc. rewrite Hc.
    now rewrite (IH Hs).
Qed.

Lemma fields_join_amp (values : list value) :
  Forall (fun v => no_amp (toString v) = true) values ->
  fields (join_amp values) = map toString values.
Proof.
  induction 1 as [|v values Hv _ IH]; [reflexivity|].
  simpl. rewrite append_assoc, (fields_value _ _ Hv). now rewrite IH.
Qed.

(** ** Running the methods on [this] *)

Lemma mbind_Ok {A B} (m : M A) (k : A -> M B) this a this' :
  m this = (Ok a, this') -> mbind m k this = k a this'.
Proof. unfold mbind. now intros ->. Qed.

Lemma mbind_Throw {A B} (m : M A) (k : A -> M B) this e this' :
  m this = (Throw e, this') -> mbind m k this = (Throw e, this').
Proof. unfold mbind. now intros ->. Qed.

Lemma set_messageBody_id body this :
  _messageBody this = Some body -> set_messageBody body this = this.
Proof. destruct this; simpl; intros ->; reflexivity. Qed.

Lemma set_messageBodyBuffer_id buf this :
  _messageBodyBuffer this = Some buf -> set_messageBodyBuffer buf this = this.
Proof. destruct this; simpl; intros ->; reflexivity. Qed.

Lemma messageBody_run body this :
  body_in_place body this -> messageBody this = (Ok body, this).
Proof.
  intros (Hc & Hb & _).
  unfold messageBody, mbind, read, lift, assign, ret. rewrite Hb.
  destruct body as [|c body]; simpl; [|reflexivity].
  rewrite Hc. now rewrite set_messageBody_id.
Qed.

Lemma messageBodyBuffer_run body this :
  body_in_place body this ->
  messageBodyBuffer this
  = (Ok (gbkEncode body), set_messageBodyBuffer (gbkEncode body) this).
Proof.
  intros H. pose proof H as (Hc & Hb & [Hn|Hs]).
  - unfold messageBodyBuffer, mbind, read. rewrite Hn.
    now rewrite (messageBody_run _ _ H).
  - unfold messageBodyBuffer, mbind, read, ret. rewrite Hs.
    now rewrite set_messageBodyBuffer_id.
Qed.

Lemma body_in_place_buffer body this :
  body_in_place body this ->
  body_in_place body (set_messageBodyBuffer (gbkEncode body) this).
Proof. intros (Hc & Hb & _). repeat split; auto. Qed.

Lemma body_in_place_messageHead body head this :
  body_in_place body this -> body_in_place body (set_messageHead head this).
Proof. intros (Hc & Hb & Hbuf). repeat split; auto. Qed.

Lemma body_in_place_networkHead body head this :
  body_in_place body this -> body_in_place body (set_networkHead head this).
Proof. intros (Hc & Hb & Hbuf). repeat split; auto. Qed.

Lemma composeMessageHead_run now body this :
  body_in_place body this ->
  composeMessageHead now this
  = (Ok (messageHead_layout (_clientConfig this) (_functionCode this)
           (_clientLogId this)
           (dateFormat now (dateTimeFormat (_clientConfig this)))
           (padString (body_byte_length body) 8 (Some "0"))),
     set_messageBodyBuffer (gbkEncode body) this).
Proof.
  intros H. unfold composeMessageHead, mbind, read, ret.
  rewrite (messageBodyBuffer_run _ _ H).
  unfold messageHead_layout, body_byte_length, Array_join.
  rewrite append_empty_l, !append_assoc. reflexivity.
Qed.

Lemma composeNetworkHead_run now body this :
  body_in_place body this ->
  composeNetworkHead now this
  = (Ok (networkHead_layout (_clientConfig this) (_clientLogId this)
           (dateFormat now (dateTimeFormat (_clientConfig this)))
           (padString (body_byte_length body) 10 (Some "0"))),
     set_messageBodyBuffer (gbkEncode body) this).
Proof.
  intros H. unfold composeNetworkHead, mbind, read, ret.
  rewrite (messageBodyBuffer_run _ _ H).
  unfold networkHead_layout, body_byte_length, Array_join.
  rewrite append_empty_l, !append_assoc. reflexivity.
Qed.

(** ** The constructor *)

Lemma hasOwnProperty_request_None functionCode :
  api_request !! functionCode = None ->
  hasOwnProperty_request functionCode = false.
Proof. unfold hasOwnProperty_request. now intros ->. Qed.

Lemma hasOwnProperty_request_Some functionCode keyDictionary :
  api_request !! functionCode = Some keyDictionary ->
  hasOwnProperty_request functionCode = true.
Proof. unfold hasOwnProperty_request. now intros ->. Qed.

Lemma body_in_place_line_69 clientConfig clientLogId functionCode paramsList
    keyDictionary body :
  api_request !! functionCode = Some keyDictionary ->
  for_keys keyDictionary (Some paramsList) "" = Ok body ->
  body_in_place body
    (this_after_line_69 clientConfig clientLogId functionCode paramsList body).
Proof.
  intros Hs Hb. repeat split; [|now left].
  unfold composeMessageBody. simpl. now rewrite Hs.
Qed.

(** The constructor on an unknown function code. *)
Lemma constructor_unknown now_message now_network clientConfig clientLogId
    functionCode paramsList :
  api_request !! functionCode = None ->
  constructor now_message now_network clientConfig clientLogId functionCode
    paramsList
  = (Throw (Error InvalidFunctionCode_message),
     this_after_line_62 clientConfig clientLogId functionCode).
Proof.
  intros H. unfold constructor, mbind.
  now rewrite (hasOwnProperty_request_None _ H).
Qed.

(** The constructor when the body builder throws. *)
Lemma constructor_body_throws now_message now_network clientConfig
    clientLogId functionCode paramsList keyDictionary e :
  api_request !! functionCode = Some keyDictionary ->
  for_keys keyDictionary (Some paramsList) "" = Throw e ->
  constructor now_message now_network clientConfig clientLogId functionCode
    paramsList
  = (Throw e,
     set_paramsList paramsList
       (this_after_line_62 clientConfig clientLogId functionCode)).
Proof.
  intros Hs Hb. unfold constructor, mbind.
  rewrite (hasOwnProperty_request_Some _ _ Hs).
  unfold ret, assign, lift, composeMessageBody. simpl.
  now rewrite Hs, Hb.
Qed.

(** The constructor when the body builder returns [body]: the two
    header builders run, in this order, on the object that already
    holds the body. *)
Lemma constructor_body_built now_message now_network clientConfig
    clientLogId functionCode paramsList keyDictionary body :
  api_request !! functionCode = Some keyDictionary ->
  for_keys keyDictionary (Some paramsList) "" = Ok body ->
  let this_body :=
    this_after_line_69 clientConfig clientLogId functionCode paramsList body in
  let head :=
    messageHead_layout clientConfig functionCode
      (padString clientLogId 20 (Some "0"))
      (dateFormat now_message (dateTimeFormat clientConfig))
      (padString (body_byte_length body) 8 (Some "0")) in
  let head' :=
    networkHead_layout clientConfig (padString clientLogId 20 (Some "0"))
      (dateFormat now_network (dateTimeFormat clientConfig))
      (padString (body_byte_length body) 10 (Some "0")) in
  composeMessageHead now_message this_body
  = (Ok head, set_messageBodyBuffer (gbkEncode body) this_body)
  /\ composeNetworkHead now_network
       (set_messageHead head
          (set_messageBodyBuffer (gbkEncode body) this_body))
     = (Ok head',
        set_messageHead head
          (set_messageBodyBuffer (gbkEncode body) this_body))
  /\ constructor now_message now_network clientConfig clientLogId
       functionCode paramsList
     = (Ok tt,
        set_networkHead head'
          (set_messageHead head
             (set_messageBodyBuffer (gbkEncode body) this_body))).
Proof.
  intros Hs Hb this_body head head'.
  pose proof (body_in_place_line_69 clientConfig clientLogId functionCode
                paramsList keyDictionary body Hs Hb) as Hin.
  fold this_body in Hin.
  pose proof (composeMessageHead_run now_message body this_body Hin) as Hh.
  pose proof (composeNetworkHead_run now_network body _
                (body_in_place_messageHead body head _
                   (body_in_place_buffer body _ Hin))) as Hn.
  split; [exact Hh|]. split; [exact Hn|].
  unfold constructor.
  rewrite (hasOwnProperty_request_Some _ _ Hs). simpl negb. cbv iota.
  rewrite (mbind_Ok (ret tt) _ _ tt _ eq_refl).
  rewrite (mbind_Ok (assign (set_paramsList paramsList)) _ _ tt _ eq_refl).
  rewrite (mbind_Ok (lift composeMessageBody) _ _ body
             (set_paramsList paramsList
                (this_after_line_62 clientConfig clientLogId functionCode)))
    by (unfold lift, composeMessageBody; simpl; now rewrite Hs, Hb).
  rewrite (mbind_Ok (assign (set_messageBody body)) _ _ tt _ eq_refl).
  rewrite (mbind_Ok _ _ _ _ _ Hh).
  rewrite (mbind_Ok (assign (set_messageHead head)) _ _ tt _ eq_refl).
  rewrite (mbind_Ok _ _ _ _ _ Hn).
  reflexivity.
Qed.

Lemma new_RegulatoryMessage_Ok now_message now_network clientConfig
    clientLogId functionCode paramsList this :
  new_RegulatoryMessage now_message now_network clientConfig clientLogId
    functionCode paramsList = Ok this ->
  exists keyDictionary body,
    api_request !! functionCode = Some keyDictionary
    /\ for_keys keyDictionary (Some paramsList) "" = Ok body
    /\ constructor now_message now_network clientConfig clientLogId
         functionCode paramsList = (Ok tt, this).
Proof.
  unfold new_RegulatoryMessage. intros H.
  destruct (api_request !! functionCode) as [keyDictionary|] eqn:Hs.
  - destruct (for_keys keyDictionary (Some paramsList) "") as [body|e] eqn:Hb.
    + exists keyDictionary, body. split; [reflexivity|]. split; [exact Hb|].
      destruct (constructor_body_built now_message now_network clientConfig
                  clientLogId functionCode paramsList keyDictionary body
                  Hs Hb) as (_ & _ & Hc).
      rewrite Hc in H |- *. now inversion H.
    + rewrite (constructor_body_throws _ _ _ _ _ _ _ _ Hs Hb) in H.
      discriminate.
  - rewrite (constructor_unknown _ _ _ _ _ _ Hs) in H. discriminate.
Qed.

Lemma new_RegulatoryMessage_Throw now_message now_network clientConfig
    clientLogId functionCode paramsList keyDictionary e :
  api_request !! functionCode = Some keyDictionary ->
  for_keys keyDictionary (Some paramsList) "" = Throw e ->
  new_RegulatoryMessage now_message now_network clientConfig clientLogId
    functionCode paramsList = Throw e.
Proof.
  intros Hs Hb. unfold new_RegulatoryMessage.
  now rewrite (constructor_body_throws _ _ _ _ _ _ _ _ Hs Hb).
Qed.

(** The length field of a header: the decimal digits of the length
    behind zeros when they fit the width, their trailing [width] digits
    when they do not. *)
Lemma padString_length_field (size : value) (width : nat) :
  String.length (padString size width (Some "0")) = width
  /\ (String.length (toString size) <= width ->
      padString size width (Some "0")
      = copies (width - String.length (toString size)) "0" +:+ toString size)
  /\ (width < String.length (toString size) ->
      exists dropped,
        toString size = dropped +:+ padString size width (Some "0")).
Proof.
  split; [apply length_padString|]. split.
  - intros H. apply Nat.le_lteq in H as [H|H].
    + now rewrite padString_shorter.
    + rewrite padString_eq by exact H.
      now replace (width - String.length (toString size)) with 0 by lia.
  - intros H. rewrite padString_longer by exact H.
    destruct (substr_suffix (toString size)
                (String.length (toString size) - width)) as (d & Hd & _).
    now exists d.
Qed.

(** C1: in a constructed message, the length field of the message
    header (8 digits) and of the network header (10 digits) is
    [padString] with spacer '0' of the byte length of the GBK-encoded
    body; and the two header builders run on the object that already
    holds the body, which the constructed message still holds. *)
Theorem C1_header_lengths_match_encoded_body now_message now_network
    clientConfig clientLogId functionCode paramsList this :
  new_RegulatoryMessage now_message now_network clientConfig clientLogId
    functionCode paramsList = Ok this ->
  exists keyDictionary body,
    api_request !! functionCode = Some keyDictionary
    /\ for_keys keyDictionary (Some paramsList) "" = Ok body
    /\ _messageBody this = Some body
    /\ _messageBodyBuffer this = Some (gbkEncode body)
    /\ toString (body_byte_length body)
       = NilZero.string_of_uint (N.to_uint (N.of_nat (length (gbkEncode body))))
    /\ _messageHead this
       = Some (messageHead_layout clientConfig functionCode
                 (padString clientLogId 20 (Some "0"))
                 (dateFormat now_message (dateTimeFormat clientConfig))
                 (padString (body_byte_length body) 8 (Some "0")))
    /\ _networkHead this
       = Some (networkHead_layout clientConfig
                 (padString clientLogId 20 (Some "0"))
                 (dateFormat now_network (dateTimeFormat clientConfig))
                 (padString (body_byte_length body) 10 (Some "0")))
    /\ (forall width,
           String.length (padString (body_byte_length body) width (Some "0"))
           = width
           /\ (String.length (toString (body_byte_length body)) <= width ->
               padString (body_byte_length body) width (Some "0")
               = copies (width
                         - String.length (toString (body_byte_length body)))
                   "0"
                 +:+ toString (body_byte_length body))
           /\ (width < String.length (toString (body_byte_length body)) ->
               exists dropped,
                 toString (body_byte_length body)
                 = dropped
                   +:+ padString (body_byte_length body) width (Some "0")))
    /\ exists head head',
        let this_body :=
          this_after_line_69 clientConfig clientLogId functionCode
            paramsList body in
        _messageBody this_body = Some body
        /\ _messageHead this_body = None
        /\ _networkHead this_body = None
        /\ composeMessageHead now_message this_body
           = (Ok head, set_messageBodyBuffer (gbkEncode body) this_body)
        /\ composeNetworkHead now_network
             (set_messageHead head
                (set_messageBodyBuffer (gbkEncode body) this_body))
           = (Ok head',
              set_messageHead head
                (set_messageBodyBuffer (gbkEncode body) this_body))
        /\ this
           = set_networkHead head'
               (set_messageHead head
                  (set_messageBodyBuffer (gbkEncode body) this_body)).
Proof.
  intros H.
  apply new_RegulatoryMessage_Ok in H as (keyDictionary & body & Hs & Hb & Hc).
  destruct (constructor_body_built now_message now_network clientConfig
              clientLogId functionCode paramsList keyDictionary body Hs Hb)
    as (Hh & Hn & Hc').
  rewrite Hc' in Hc. inversion Hc as [Hthis]. clear Hc.
  exists keyDictionary, body.
  do 7 (split; [reflexivity || assumption|]).
  split; [intros width; apply padString_length_field|].
  eexists _, _. cbv zeta.
  do 3 (split; [reflexivity|]).
  split; [exact Hh|]. split; [exact Hn|]. reflexivity.
Qed.

(** C3: on a function code with no schema in the request table the
    constructor throws the invalid-function-code error, whatever the
    parameters; the object it leaves has no parameter list, body, body
    buffer, message header or network header assigned. *)
Theorem C3_unknown_function_code_throws now_message now_network clientConfig
    clientLogId functionCode paramsList :
  api_request !! functionCode = None ->
  new_RegulatoryMessage now_message now_network clientConfig clientLogId
    functionCode paramsList = Throw UnknownFunctionCode
  /\ fst (constructor now_message now_network clientConfig clientLogId
            functionCode paramsList) = Throw UnknownFunctionCode
  /\ let this :=
       snd (constructor now_message now_network clientConfig clientLogId
              functionCode paramsList) in
     _paramsList this = None
     /\ _messageBody this = None
     /\ _messageBodyBuffer this = None
     /\ _messageHead this = None
     /\ _networkHead this = None.
Proof.
  intros H. unfold new_RegulatoryMessage.
  rewrite (constructor_unknown _ _ _ _ _ _ H).
  repeat split.
Qed.

(** C7: the client log id a constructed message stores is [padString]
    of the caller's id at width 20 with spacer '0'.  It has 20
    characters: the id behind zeros when the id is shorter, the trailing
    20 characters of the id when it is longer, the id itself when it has
    20 characters. *)
Theorem C7_clientLogId_has_20_characters now_message now_network clientConfig
    clientLogId functionCode paramsList this :
  new_RegulatoryMessage now_message now_network clientConfig clientLogId
    functionCode paramsList = Ok this ->
  _clientLogId this = padString clientLogId 20 (Some "0")
  /\ String.length (_clientLogId this) = 20
  /\ (String.length (toString clientLogId) < 20 ->
      _clientLogId this
      = copies (20 - String.length (toString clientLogId)) "0"
        +:+ toString clientLogId)
  /\ (20 < String.length (toString clientLogId) ->
      exists dropped,
        toString clientLogId = dropped +:+ _clientLogId this
        /\ String.length dropped = String.length (toString clientLogId) - 20)
  /\ (String.length (toString clientLogId) = 20 ->
      _clientLogId this = toString clientLogId).
Proof.
  intros H.
  apply new_RegulatoryMessage_Ok in H as (keyDictionary & body & Hs & Hb & Hc).
  destruct (constructor_body_built now_message now_network clientConfig
              clientLogId functionCode paramsList keyDictionary body Hs Hb)
    as (_ & _ & Hc').
  rewrite Hc' in Hc. inversion Hc as [Hthis]. clear Hc Hc'. simpl.
  split; [reflexivity|]. split; [apply length_padString|].
  split; [|split].
  - intros L. now rewrite padString_shorter.
  - intros G. rewrite padString_longer by exact G.
    destruct (substr_suffix (toString clientLogId)
                (String.length (toString clientLogId) - 20)) as (d & Hd & Hl).
    exists d. split; [exact Hd | lia].
  - intros E. now apply padString_eq.
Qed.

(** ** extract, case by case *)

Lemma extract_missing_required keyObject dataObject :
  KeyObject.required keyObject = true ->
  dataObject !! KeyObject.key keyObject = None ->
  extract keyObject dataObject = Throw MissingRequiredField.
Proof.
  intros Hr Hd. unfold extract, hasOwnProperty. now rewrite Hr, Hd.
Qed.


Lemma extract_present keyObject dataObject value :
  dataObject !! KeyObject.key keyObject = Some value ->
  extract keyObject dataObject
  = if match KeyObject.type keyObject with
       | TypeString => negb (test_digits (toString value))
       | TypeOther => false
       end
    then Throw InvalidFieldFormat
    else if length_gt value (KeyObject.length keyObject)
         then Throw FieldOverflow
         else Ok value.
Proof.
  intros Hd. unfold extract, hasOwnProperty. rewrite Hd.
  now rewrite andb_false_r.
Qed.

(** ** The loops, entry by entry *)

Lemma bind_bind {A B C} (r : result A) (k : A -> result B)
    (k' : B -> result C) :
  bind (bind r k) k' = bind r (fun a => bind (k a) k').
Proof. now destruct r. Qed.

Lemma for_subKeys_app key key' listItem messageBody :
  for_subKeys (key ++ key') listItem messageBody
  = bind (for_subKeys key listItem messageBody) (for_subKeys key' listItem).
Proof.
  revert messageBody.
  induction key as [|subKey key IH]; intros messageBody; [reflexivity|].
  simpl. destruct (extract subKey listItem) as [v|e]; simpl;
    [apply IH | reflexivity].
Qed.

Lemma for_listItems_app items items' key messageBody :
  for_listItems (items ++ items') key messageBody
  = bind (for_listItems items key messageBody) (for_listItems items' key).
Proof.
  revert messageBody.
  induction items as [|listItem items IH]; intros messageBody; [reflexivity|].
  simpl. destruct (for_subKeys key listItem messageBody) as [b|e]; simpl;
    [apply IH | reflexivity].
Qed.

Lemma for_keys_app keyDictionary keyDictionary' paramsList messageBody :
  for_keys (keyDictionary ++ keyDictionary') (Some paramsList) messageBody
  = bind (for_keys keyDictionary (Some paramsList) messageBody)
      (for_keys keyDictionary' (Some paramsList)).
Proof.
  revert messageBody.
  induction keyDictionary as [|k rest IH]; intros messageBody; [reflexivity|].
  destruct k as [key|key]; simpl.
  - destruct (extract key (ParamsList.props paramsList)) as [v|e]; simpl;
      [apply IH | reflexivity].
  - destruct (ParamsList.list paramsList) as [items|]; [|reflexivity].
    destruct (for_listItems items key messageBody) as [b|e]; simpl;
      [apply IH | reflexivity].
Qed.

(** The first entry that throws decides the outcome: a scalar entry. *)
Lemma for_keys_scalar_throws before key rest paramsList messageBody body e :
  for_keys before (Some paramsList) messageBody = Ok body ->
  extract key (ParamsList.props paramsList) = Throw e ->
  for_keys (before ++ Scalar key :: rest) (Some paramsList) messageBody
  = Throw e.
Proof.
  intros Hb He. rewrite for_keys_app, Hb. simpl. now rewrite He.
Qed.

(** The first entry that throws decides the outcome: a sub-descriptor
    of a group, on an entry of the list. *)
Lemma for_keys_group_throws before key subKey key' rest paramsList
    items listItem items' messageBody body body' body'' e :
  for_keys before (Some paramsList) messageBody = Ok body ->
  ParamsList.list paramsList = Some (items ++ listItem :: items') ->
  for_listItems items (key ++ subKey :: key') body = Ok body' ->
  for_subKeys key listItem body' = Ok body'' ->
  extract subKey listItem = Throw e ->
  for_keys (before ++ Group (key ++ subKey :: key') :: rest)
    (Some paramsList) messageBody
  = Throw e.
Proof.
  intros Hb Hl Hi Hk He. rewrite for_keys_app, Hb. simpl. rewrite Hl.
  rewrite for_listItems_app, Hi. simpl.
  rewrite for_subKeys_app, Hk. simpl. now rewrite He.
Qed.

(** A group met without a list to iterate. *)
Lemma for_keys_group_no_list before key rest paramsList messageBody body :
  for_keys before (Some paramsList) messageBody = Ok body ->
  ParamsList.list paramsList = None ->
  for_keys (before ++ Group key :: rest) (Some paramsList) messageBody
  = Throw TypeError.
Proof.
  intros Hb Hl. rewrite for_keys_app, Hb. simpl. now rewrite Hl.
Qed.

Lemma for_keys_group_never_Ok keyDictionary key paramsList messageBody :
  In (Group key) keyDictionary ->
  ParamsList.list paramsList = None ->
  exists e, for_keys keyDictionary (Some paramsList) messageBody = Throw e.
Proof.
  intros Hin Hl. revert messageBody.
  induction keyDictionary as [|k rest IH]; intros messageBody;
    [destruct Hin|].
  destruct k as [key0|key0]; simpl.
  - destruct Hin as [Heq|Hin]; [discriminate|].
    destruct (extract key0 (ParamsList.props paramsList)) as [v|e]; simpl;
      [now apply IH | now exists e].
  - rewrite Hl. now exists TypeError.
Qed.

(** C2 (amended): when [composeMessageBody] returns, the body is the
    values extracted for the expanded entries of the schema, in schema
    order, each followed by one '&'; there are as many values as scalar
    entries plus expanded group entries; and when no value contains
    '&', reading the body back at its '&' gives those values, hence
    that many fields. *)
Theorem C2_body_is_values_each_followed_by_amp this keyDictionary paramsList
    body :
  api_request !! _functionCode this = Some keyDictionary ->
  _paramsList this = Some paramsList ->
  composeMessageBody this = Ok body ->
  exists values,
    Forall2 extracts_to (expand keyDictionary paramsList) values
    /\ body = join_amp values
    /\ length values = entry_count keyDictionary paramsList
    /\ (Forall (fun v => no_amp (toString v) = true) values ->
        fields body = map toString values
        /\ length (fields body) = entry_count keyDictionary paramsList).
Proof.
  intros Hs Hp Hc. unfold composeMessageBody in Hc. rewrite Hs, Hp in Hc.
  apply for_keys_Ok in Hc as (values & Hv & ->).
  exists values. split; [exact Hv|]. split; [reflexivity|].
  assert (length values = entry_count keyDictionary paramsList) as Hlen.
  { rewrite <- (Forall2_length _ _ _ Hv). apply length_expand. }
  split; [exact Hlen|].
  intros Hamp. rewrite append_empty_l, (fields_join_amp _ Hamp).
  split; [reflexivity|]. now rewrite length_map.
Qed.


(** C10 (amended): when the schema has a group and the parameter set
    has no list to iterate, the constructor never returns a message; it
    throws the TypeError of the iteration when the entries before the
    first group have all been extracted, and the error of a scalar entry
    before the group when that entry is the first to throw. *)
Theorem C10_group_without_list_throws now_message now_network clientConfig
    clientLogId functionCode paramsList keyDictionary :
  api_request !! functionCode = Some keyDictionary ->
  (exists key, In (Group key) keyDictionary) ->
  ParamsList.list paramsList = None ->
  (exists e,
      new_RegulatoryMessage now_message now_network clientConfig clientLogId
        functionCode paramsList = Throw e)
  /\ (forall before key rest body,
         keyDictionary = before ++ Group key :: rest ->
         for_keys before (Some paramsList) "" = Ok body ->
         new_RegulatoryMessage now_message now_network clientConfig
           clientLogId functionCode paramsList = Throw TypeError)
  /\ (forall before keyObject rest body e,
         keyDictionary = before ++ Scalar keyObject :: rest ->
         for_keys before (Some paramsList) "" = Ok body ->
         extract keyObject (ParamsList.props paramsList) = Throw e ->
         new_RegulatoryMessage now_message now_network clientConfig
           clientLogId functionCode paramsList = Throw e).
Proof.
  intros Hs [key Hin] Hl. split; [|split].
  - destruct (for_keys_group_never_Ok keyDictionary key paramsList "" Hin Hl)
      as [e He].
    exists e. now apply (new_RegulatoryMessage_Throw _ _ _ _ _ _ _ _ Hs).
  - intros before key0 rest body -> Hb.
    apply (new_RegulatoryMessage_Throw _ _ _ _ _ _ _ _ Hs).
    now apply (for_keys_group_no_list _ _ _ _ _ body).
  - intros before k rest body e -> Hb He.
    apply (new_RegulatoryMessage_Throw _ _ _ _ _ _ _ _ Hs).
    now apply (for_keys_scalar_throws _ _ _ _ _ body).
Qed.

(** ** The getters on a constructed message *)

Lemma truthy_nonempty (s : string) :
  0 < String.length s -> truthy (VStr s) = true.
Proof. destruct s; simpl; [lia | reflexivity]. Qed.

Lemma truthy_messageHead_layout config functionCode clientLogId timestamp
    lengthField :
  truthy_field
    (Some (messageHead_layout config functionCode clientLogId timestamp
             lengthField)) = true.
Proof.
  apply truthy_nonempty. unfold messageHead_layout.
  rewrite !length_append, length_copies. simpl. lia.
Qed.

Lemma truthy_networkHead_layout config clientLogId timestamp lengthField :
  truthy_field
    (Some (networkHead_layout config clientLogId timestamp lengthField))
  = true.
Proof. reflexivity. Qed.

Lemma constructed_new now_message now_network clientConfig clientLogId
    functionCode paramsList this :
  new_RegulatoryMessage now_message now_network clientConfig clientLogId
    functionCode paramsList = Ok this ->
  exists body, constructed body this.
Proof.
  intros H.
  apply new_RegulatoryMessage_Ok in H as (keyDictionary & body & Hs & Hb & Hc).
  destruct (constructor_body_built now_message now_network clientConfig
              clientLogId functionCode paramsList keyDictionary body Hs Hb)
    as (_ & _ & Hc').
  rewrite Hc' in Hc. inversion Hc as [Hthis]. clear Hc Hc'.
  exists body. split; [|split; [reflexivity|split]].
  - apply body_in_place_networkHead, body_in_place_messageHead,
      body_in_place_buffer.
    now apply (body_in_place_line_69 _ _ _ _ keyDictionary).
  - apply truthy_messageHead_layout.
  - apply truthy_networkHead_layout.
Qed.

(** The body getters return the stored values and leave the object as
    it is: a second read returns the same. *)
Lemma messageBody_constructed body this :
  constructed body this -> messageBody this = (Ok body, this).
Proof. intros (Hin & _). now apply messageBody_run. Qed.

Lemma messageBodyBuffer_constructed body this :
  constructed body this ->
  messageBodyBuffer this = (Ok (gbkEncode body), this).
Proof.
  intros (Hin & Hbuf & _). rewrite (messageBodyBuffer_run _ _ Hin).
  now rewrite set_messageBodyBuffer_id.
Qed.

(** The header getters recompose the header at every read, with the
    instant of that read. *)
Lemma messageHead_constructed now body this :
  constructed body this ->
  let head :=
    messageHead_layout (_clientConfig this) (_functionCode this)
      (_clientLogId this)
      (dateFormat now (dateTimeFormat (_clientConfig this)))
      (padString (body_byte_length body) 8 (Some "0")) in
  messageHead now this = (Ok (Some head), set_messageHead head this)
  /\ constructed body (set_messageHead head this).
Proof.
  intros (Hin & Hbuf & Hh & Hn) head. split.
  - unfold messageHead.
    rewrite (mbind_Ok (read _messageHead) _ _ _ _ eq_refl), Hh.
    rewrite (mbind_Ok _ _ _ _ _ (composeMessageHead_run now body this Hin)).
    rewrite set_messageBodyBuffer_id by exact Hbuf.
    reflexivity.
  - split; [now apply body_in_place_messageHead|].
    split; [exact Hbuf|]. split; [apply truthy_messageHead_layout|exact Hn].
Qed.

Lemma networkHead_constructed now body this :
  constructed body this ->
  let head :=
    networkHead_layout (_clientConfig this) (_clientLogId this)
      (dateFormat now (dateTimeFormat (_clientConfig this)))
      (padString (body_byte_length body) 10 (Some "0")) in
  networkHead now this = (Ok (Some head), set_networkHead head this)
  /\ constructed body (set_networkHead head this).
Proof.
  intros (Hin & Hbuf & Hh & Hn) head. split.
  - unfold networkHead.
    rewrite (mbind_Ok (read _networkHead) _ _ _ _ eq_refl), Hn.
    rewrite (mbind_Ok _ _ _ _ _ (composeNetworkHead_run now body this Hin)).
    rewrite set_messageBodyBuffer_id by exact Hbuf.
    reflexivity.
  - split; [now apply body_in_place_networkHead|].
    split; [exact Hbuf|]. split; [exact Hh|apply truthy_networkHead_layout].
Qed.

Lemma Buffer_concat_exact (a b c : list byte) :
  Buffer_concat [a; b; c] (length a + length b + length c) = a ++ b ++ c.
Proof.
  unfold Buffer_concat. simpl. rewrite app_nil_r.
  replace (length a + length b + length c) with (length (a ++ b ++ c))
    by (rewrite !length_app; lia).
  rewrite <- !app_assoc.
  replace (a ++ b ++ c ++ replicate (length (a ++ b ++ c)) x00)
    with ((a ++ b ++ c) ++ replicate (length (a ++ b ++ c)) x00)
    by (now rewrite <- !app_assoc).
  apply take_app_length.
Qed.

(** The bytes of a constructed message: network header, message
    header, encoded body, with the headers recomposed at the instants
    of the read. *)
Lemma buffer_constructed now_network now_message body this :
  constructed body this ->
  fst (buffer now_network now_message this)
  = Ok (Buffer_from
          (networkHead_layout (_clientConfig this) (_clientLogId this)
             (dateFormat now_network (dateTimeFormat (_clientConfig this)))
             (padString (body_byte_length body) 10 (Some "0")))
        ++ Buffer_from
             (messageHead_layout (_clientConfig this) (_functionCode this)
                (_clientLogId this)
                (dateFormat now_message (dateTimeFormat (_clientConfig this)))
                (padString (body_byte_length body) 8 (Some "0")))
        ++ gbkEncode body).
Proof.
  intros Hc.
  destruct (networkHead_constructed now_network body this Hc) as (Hn & Hc1).
  cbv zeta in Hn, Hc1.
  destruct (messageHead_constructed now_message body _ Hc1) as (Hm & Hc2).
  cbv zeta in Hm, Hc2. simpl in Hm.
  pose proof (messageBodyBuffer_constructed body _ Hc2) as Hb.
  unfold buffer.
  rewrite (mbind_Ok _ _ _ _ _ Hn).
  rewrite (mbind_Ok (Buffer_from_field (Some _)) _ _ _ _ eq_refl).
  rewrite (mbind_Ok _ _ _ _ _ Hm).
  rewrite (mbind_Ok (Buffer_from_field (Some _)) _ _ _ _ eq_refl).
  rewrite (mbind_Ok _ _ _ _ _ Hb).
  rewrite (mbind_Ok _ _ _ _ _ Hb).
  unfold ret. simpl fst. now rewrite Buffer_concat_exact.
Qed.

(** ** More on strings and [padString] *)

Lemma substr_substr (s : string) (a b : nat) :
  substr (substr s a) b = substr s (a + b).
Proof.
  revert s; induction a as [|a IH]; intros s; [reflexivity|].
  destruct s as [|c s]; simpl.
  - now destruct b.
  - apply IH.
Qed.

Lemma substr_append_l (a b : string) (k : nat) :
  k <= String.length a -> substr (a +:+ b) k = substr a k +:+ b.
Proof.
  revert a; induction k as [|k IH]; intros a H; [reflexivity|].
  destruct a as [|c a]; simpl in H; [lia|].
  rewrite append_cons. simpl. apply IH. lia.
Qed.

Lemma substr_append_r (a b : string) (k : nat) :
  substr (a +:+ b) (String.length a + k) = substr b k.
Proof.
  induction a as [|c a IH]; [reflexivity|].
  rewrite append_cons. simpl. exact IH.
Qed.

Lemma substr_copies (k j : nat) (c : ascii) :
  j <= k ->
  substr (copies k (String c EmptyString)) j
  = copies (k - j) (String c EmptyString).
Proof.
  revert j; induction k as [|k IH]; intros j H.
  - now replace j with 0 by lia.
  - destruct j as [|j]; [reflexivity|].
    simpl copies at 1. rewrite append_cons. simpl. apply IH. lia.
Qed.

Lemma spacer_of_char (spacer : option string) :
  exists c, spacer_of spacer = String c EmptyString.
Proof. destruct spacer as [[|c r]|]; simpl; eauto. Qed.




Lemma test_digits_all_digits (s : string) :
  test_digits s = true <-> all_digits s = true /\ 0 < String.length s.
Proof.
  destruct s as [|c s]; simpl.
  - split; [discriminate | intros [_ H]; lia].
  - split; [intros H; split; [exact H | lia] | now intros [H _]].
Qed.

Lemma all_digits_string_of_uint (d : Decimal.uint) :
  all_digits (NilEmpty.string_of_uint d) = true.
Proof. induction d; simpl; auto. Qed.

(** The decimal numeral of a natural number is a non-empty run of
    digits. *)
Lemma test_digits_numeral (n : N) :
  test_digits (NilZero.string_of_uint (N.to_uint n)) = true.
Proof.
  unfold NilZero.string_of_uint.
  destruct (N.to_uint n) eqn:E; try reflexivity;
    rewrite <- E at 1; apply test_digits_all_digits;
    (split; [now rewrite E; apply all_digits_string_of_uint
            | rewrite E; simpl; lia]).
Qed.


(** X1: whatever the value, the width and the spacer argument,
    [padString] returns exactly [width] characters. *)
Theorem X1_padString_returns_width_characters (v : value) (width : nat)
    (spacer : option string) :
  String.length (padString v width spacer) = width.
Proof.
  destruct (Nat.lt_trichotomy (String.length (toString v)) width)
    as [Shorter|[Equal|Longer]].
  - rewrite padString_shorter by exact Shorter.
    destruct (spacer_of_char spacer) as [c ->].
    rewrite length_append, length_copies. simpl. lia.
  - now rewrite padString_eq.
  - rewrite padString_longer by exact Longer.
    rewrite length_substr. lia.
Qed.

(** X2: fitting a fitted string to a width that is not larger gives what
    fitting the value to that width gives at once, whatever spacer the
    second call receives; in particular [padString] at one width is
    idempotent. *)
Theorem X2_padString_twice (v : value) (width width' : nat)
    (spacer spacer' : option string) :
  width' <= width ->
  padString (VStr (padString v width spacer)) width' spacer'
  = padString v width' spacer.
Proof.
  intros Hle.
  pose proof (length_padString v width spacer) as Hlen.
  destruct (Nat.eq_dec width' width) as [->|Hne].
  { now rewrite padString_eq. }
  assert (width' < width) as Hlt by lia. clear Hle Hne.
  rewrite (padString_longer (VStr _)) by (simpl; lia).
  simpl toString. rewrite Hlen.
  destruct (Nat.lt_trichotomy (String.length (toString v)) width)
    as [L|[E|G]].
  - rewrite (padString_shorter v width) by exact L.
    destruct (spacer_of_char spacer) as [c Hc]. rewrite Hc.
    destruct (Nat.le_gt_cases (String.length (toString v)) width')
      as [Hfit|Hcut].
    + rewrite substr_append_l by (rewrite length_copies; simpl; lia).
      rewrite substr_copies by lia.
      replace (width - String.length (toString v) - (width - width'))
        with (width' - String.length (toString v)) by lia.
      apply Nat.le_lteq in Hfit as [Hfit|Hfit].
      * rewrite padString_shorter by exact Hfit. now rewrite Hc.
      * rewrite padString_eq by exact Hfit.
        now replace (width' - String.length (toString v)) with 0 by lia.
    + replace (width - width')
        with (String.length
                (copies (width - String.length (toString v))
                   (String c EmptyString))
              + (String.length (toString v) - width'))
        by (rewrite length_copies; simpl; lia).
      rewrite substr_append_r.
      now rewrite padString_longer by exact Hcut.
  - rewrite (padString_eq v width) by exact E.
    rewrite padString_longer by lia. now rewrite E.
  - rewrite (padString_longer v width) by exact G.
    rewrite substr_substr, padString_longer by lia.
    f_equal. lia.
Qed.


(** ** The body builder as a walk over the expanded entries *)

Lemma for_entries_app entries entries' messageBody :
  for_entries (entries ++ entries') messageBody
  = bind (for_entries entries messageBody) (for_entries entries').
Proof.
  revert messageBody.
  induction entries as [|entry entries IH]; intros messageBody;
    [reflexivity|].
  simpl. destruct (extract (fst entry) (snd entry)) as [v|e]; simpl;
    [apply IH | reflexivity].
Qed.

Lemma for_subKeys_entries key listItem messageBody :
  for_subKeys key listItem messageBody
  = for_entries (expand_item key listItem) messageBody.
Proof.
  revert messageBody.
  induction key as [|subKey key IH]; intros messageBody; [reflexivity|].
  simpl. destruct (extract subKey listItem) as [v|e]; simpl;
    [apply IH | reflexivity].
Qed.

Lemma for_listItems_entries items key messageBody :
  for_listItems items key messageBody
  = for_entries (concat (map (expand_item key) items)) messageBody.
Proof.
  revert messageBody.
  induction items as [|listItem items IH]; intros messageBody;
    [reflexivity|].
  simpl. rewrite for_entries_app, for_subKeys_entries.
  destruct (for_entries (expand_item key listItem) messageBody) as [b|e];
    simpl; [apply IH | reflexivity].
Qed.

Lemma iterable_if_group_tail k rest paramsList :
  iterable_if_group (k :: rest) paramsList ->
  iterable_if_group rest paramsList.
Proof.
  intros [H|H]; [now left | right].
  intros key Hin. apply (H key). now right.
Qed.

Lemma for_keys_entries keyDictionary paramsList messageBody :
  iterable_if_group keyDictionary paramsList ->
  for_keys keyDictionary (Some paramsList) messageBody
  = for_entries (expand keyDictionary paramsList) messageBody.
Proof.
  revert messageBody.
  induction keyDictionary as [|k rest IH]; intros messageBody Hit;
    [reflexivity|].
  pose proof (iterable_if_group_tail _ _ _ Hit) as Hrest.
  unfold expand. simpl. rewrite for_entries_app.
  destruct k as [key|key]; simpl.
  - destruct (extract key (ParamsList.props paramsList)) as [v|e]; simpl;
      [now apply IH | reflexivity].
  - destruct Hit as [[items Hl]|Hno].
    + rewrite Hl, for_listItems_entries.
      destruct (for_entries (concat (map (expand_item key) items))
                  messageBody) as [b|e]; simpl;
        [now apply IH | reflexivity].
    + exfalso. apply (Hno key). now left.
Qed.

Lemma for_entries_Ok_iff entries messageBody body :
  for_entries entries messageBody = Ok body
  <-> exists values,
      Forall2 extracts_to entries values
      /\ body = messageBody +:+ join_amp values.
Proof.
  revert messageBody.
  induction entries as [|entry entries IH]; intros messageBody; simpl.
  - split.
    + intros [= <-]. exists []. split; [constructor|].
      now rewrite append_empty_r.
    + intros (values & Hv & ->). inversion Hv; subst.
      simpl. now rewrite append_empty_r.
  - split.
    + intros H. apply bind_Ok in H as (v & He & H).
      apply IH in H as (values & Hv & ->).
      exists (v :: values). split; [now constructor|].
      simpl. now rewrite !append_assoc.
    + intros (values & Hv & ->).
      inversion Hv as [|entry' v es vs He Hvs]; subst.
      unfold extracts_to in He. rewrite He. simpl.
      apply IH. exists vs. split; [exact Hvs|].
      simpl join_amp. now rewrite !append_assoc.
Qed.

Lemma for_entries_Throw_iff entries messageBody e :
  for_entries entries messageBody = Throw e
  <-> exists before entry rest values,
      entries = before ++ entry :: rest
      /\ Forall2 extracts_to before values
      /\ extract (fst entry) (snd entry) = Throw e.
Proof.
  revert messageBody.
  induction entries as [|entry entries IH]; intros messageBody; simpl.
  - split; [discriminate|].
    intros (before & entry & rest & values & H & _).
    now destruct before.
  - split.
    + destruct (extract (fst entry) (snd entry)) as [v|e'] eqn:He; simpl.
      * intros H. apply IH in H as (before & entry' & rest & values
                                    & -> & Hv & He').
        exists (entry :: before), entry', rest, (v :: values).
        split; [reflexivity|]. split; [now constructor | exact He'].
      * intros [= ->]. exists [], entry, entries, [].
        split; [reflexivity|]. split; [constructor | exact He].
    + intros (before & entry' & rest & values & Heq & Hv & He).
      destruct before as [|b before]; simpl in Heq;
        injection Heq as -> ->.
      * now rewrite He.
      * inversion Hv as [|b' v bs vs Hb Hvs]; subst.
        unfold extracts_to in Hb. rewrite Hb. simpl.
        apply IH. now exists before, entry', rest, vs.
Qed.

(** X6: when the list can be iterated if the schema has a group,
    [composeMessageBody] returns a body exactly when every expanded
    entry extracts to a value, and the body is then those values, each
    followed by '&'. *)
Theorem X6_body_built_iff_all_entries_extract this keyDictionary paramsList
    body :
  api_request !! _functionCode this = Some keyDictionary ->
  _paramsList this = Some paramsList ->
  iterable_if_group keyDictionary paramsList ->
  composeMessageBody this = Ok body
  <-> exists values,
      Forall2 extracts_to (expand keyDictionary paramsList) values
      /\ body = join_amp values.
Proof.
  intros Hs Hp Hit. unfold composeMessageBody. rewrite Hs, Hp.
  rewrite (for_keys_entries _ _ _ Hit), for_entries_Ok_iff.
  split; intros (values & Hv & ->); exists values; (split; [exact Hv|]);
    now rewrite append_empty_l.
Qed.

(** ** The entry that throws first *)

Lemma expand_app keyDictionary keyDictionary' paramsList :
  expand (keyDictionary ++ keyDictionary') paramsList
  = expand keyDictionary paramsList ++ expand keyDictionary' paramsList.
Proof. unfold expand. now rewrite map_app, concat_app. Qed.








(** X7: when the list can be iterated if the schema has a group,
    [composeMessageBody] throws an error exactly when that error is the
    one [extract] throws on the first expanded entry it refuses. *)
Theorem X7_body_throws_error_of_first_refused_entry this keyDictionary
    paramsList e :
  api_request !! _functionCode this = Some keyDictionary ->
  _paramsList this = Some paramsList ->
  iterable_if_group keyDictionary paramsList ->
  composeMessageBody this = Throw e
  <-> exists before entry rest values,
      expand keyDictionary paramsList = before ++ entry :: rest
      /\ Forall2 extracts_to before values
      /\ extract (fst entry) (snd entry) = Throw e.
Proof.
  intros Hs Hp Hit. unfold composeMessageBody. rewrite Hs, Hp.
  rewrite (for_keys_entries _ _ _ Hit).
  apply for_entries_Throw_iff.
Qed.

Lemma extract_not_UnknownFunctionCode keyObject dataObject :
  extract keyObject dataObject <> Throw UnknownFunctionCode.
Proof.
  unfold extract.
  destruct (KeyObject.required keyObject
            && negb (hasOwnProperty dataObject (KeyObject.key keyObject)));
    [intros [= H]; vm_compute in H; discriminate|].
  destruct (dataObject !! KeyObject.key keyObject) as [value|];
    [|discriminate].
  destruct (match KeyObject.type keyObject with
            | TypeString => negb (test_digits (toString value))
            | TypeOther => false
            end); [intros [= H]; vm_compute in H; discriminate|].
  destruct (length_gt value (KeyObject.length keyObject));
    [intros [= H]; vm_compute in H; discriminate | discriminate].
Qed.

(** An error of the body builder other than the TypeError is the error
    [extract] throws on one of the expanded entries. *)
Lemma for_keys_Throw_entry keyDictionary paramsList messageBody e :
  for_keys keyDictionary (Some paramsList) messageBody = Throw e ->
  e = TypeError
  \/ exists entry,
      In entry (expand keyDictionary paramsList)
      /\ extract (fst entry) (snd entry) = Throw e.
Proof.
  revert messageBody.
  induction keyDictionary as [|k rest IH]; intros messageBody; simpl;
    [discriminate|].
  assert (forall b,
             for_keys rest (Some paramsList) b = Throw e ->
             e = TypeError
             \/ exists entry,
                 In entry (expand (k :: rest) paramsList)
                 /\ extract (fst entry) (snd entry) = Throw e) as IH'.
  { intros b H. destruct (IH b H) as [H'|(entry & Hin & He)];
      [now left | right].
    exists entry. split; [|exact He].
    change (k :: rest) with ([k] ++ rest). rewrite expand_app.
    apply in_app_iff. now right. }
  destruct k as [key|key].
  - destruct (extract key (ParamsList.props paramsList)) as [v|e'] eqn:He;
      simpl; [apply IH'|].
    intros [= ->]. right. exists (key, ParamsList.props paramsList).
    split; [now left | exact He].
  - destruct (ParamsList.list paramsList) as [items|] eqn:Hl;
      [|intros [= <-]; now left].
    destruct (for_listItems items key messageBody) as [b|e'] eqn:Hi;
      simpl; [apply IH'|].
    intros [= ->]. right.
    rewrite for_listItems_entries in Hi.
    apply for_entries_Throw_iff in Hi
      as (before & entry & rest' & values & Heq & _ & He).
    exists entry. split; [|exact He].
    change (Group key :: rest) with ([Group key] ++ rest).
    rewrite expand_app. apply in_app_iff. left.
    unfold expand. simpl. rewrite Hl, app_nil_r, Heq.
    apply in_app_iff. right. now left.
Qed.

(** X8: the constructor throws the invalid-function-code error exactly
    when the request table has no schema for the function code; any
    other error it throws, the TypeError apart, is the error [extract]
    throws on one of the expanded entries of the schema found. *)
Theorem X8_constructor_failures now_message now_network clientConfig
    clientLogId functionCode paramsList :
  (new_RegulatoryMessage now_message now_network clientConfig clientLogId
     functionCode paramsList = Throw UnknownFunctionCode
   <-> api_request !! functionCode = None)
  /\ (forall e,
         new_RegulatoryMessage now_message now_network clientConfig
           clientLogId functionCode paramsList = Throw e ->
         e <> UnknownFunctionCode ->
         e <> TypeError ->
         exists keyDictionary entry,
           api_request !! functionCode = Some keyDictionary
           /\ In entry (expand keyDictionary paramsList)
           /\ extract (fst entry) (snd entry) = Throw e).
Proof.
  assert (forall e,
             new_RegulatoryMessage now_message now_network clientConfig
               clientLogId functionCode paramsList = Throw e ->
             (api_request !! functionCode = None /\ e = UnknownFunctionCode)
             \/ (exists keyDictionary,
                    api_request !! functionCode = Some keyDictionary
                    /\ (e = TypeError
                        \/ exists entry,
                            In entry (expand keyDictionary paramsList)
                            /\ extract (fst entry) (snd entry) = Throw e)))
    as Hcases.
  { intros e H.
    destruct (api_request !! functionCode) as [keyDictionary|] eqn:Hs.
    - right. exists keyDictionary. split; [reflexivity|].
      destruct (for_keys keyDictionary (Some paramsList) "") as [body|e']
        eqn:Hb.
      + unfold new_RegulatoryMessage in H.
        destruct (constructor_body_built now_message now_network
                    clientConfig clientLogId functionCode paramsList
                    keyDictionary body Hs Hb) as (_ & _ & Hc).
        rewrite Hc in H. discriminate.
      + rewrite (new_RegulatoryMessage_Throw _ _ _ _ _ _ _ _ Hs Hb) in H.
        injection H as <-. exact (for_keys_Throw_entry _ _ _ _ Hb).
    - left. split; [reflexivity|].
      unfold new_RegulatoryMessage in H.
      rewrite (constructor_unknown _ _ _ _ _ _ Hs) in H.
      now injection H as <-. }
  split.
  - split.
    + intros H.
      destruct (Hcases _ H) as [[Hn _]|(kd & Hs & [Ht|(entry & _ & He)])];
        [exact Hn | discriminate |].
      now apply extract_not_UnknownFunctionCode in He.
    + intros Hn. unfold new_RegulatoryMessage.
      now rewrite (constructor_unknown _ _ _ _ _ _ Hn).
  - intros e H Hu Ht.
    destruct (Hcases _ H) as [[_ He]|(kd & Hs & [He|(entry & Hin & He)])];
      [contradiction | contradiction |].
    now exists kd, entry.
Qed.

Lemma is_digit_not_amp (c : ascii) :
  is_digit c = true -> Ascii.eqb c "&" = false.
Proof.
  intros H. destruct (Ascii.eqb_spec c "&") as [->|_]; [|reflexivity].
  discriminate.
Qed.

Lemma all_digits_no_amp (s : string) : all_digits s = true -> no_amp s = true.
Proof.
  induction s as [|c s IH]; [reflexivity|]. simpl.
  intros H. apply andb_prop in H as [Hc Hs].
  now rewrite (is_digit_not_amp _ Hc), IH.
Qed.

Lemma expand_in_descriptors keyDictionary paramsList entry :
  In entry (expand keyDictionary paramsList) ->
  In (fst entry) (descriptors keyDictionary).
Proof.
  unfold expand, descriptors.
  induction keyDictionary as [|k rest IH]; simpl; [easy|].
  rewrite !in_app_iff. intros [H|H]; [left | right; now apply IH].
  destruct k as [key|key]; simpl in H.
  - destruct H as [<-|[]]. now left.
  - destruct (ParamsList.list paramsList) as [items|]; [|destruct H].
    induction items as [|i items IHi]; simpl in H; [destruct H|].
    apply in_app_iff in H as [H|H]; [|now apply IHi].
    unfold expand_item in H. apply in_map_iff in H as (subKey & <- & H).
    exact H.
Qed.

(** X9: for a schema whose descriptors are all required and digits-only,
    a body that [composeMessageBody] returns reads back, at its '&', as
    the string forms of the values the entries' keys are bound to, in
    order; all of them are non-empty runs of digits. *)
Theorem X9_digit_schema_body_reads_back this keyDictionary paramsList body :
  api_request !! _functionCode this = Some keyDictionary ->
  _paramsList this = Some paramsList ->
  Forall (fun keyObject =>
            KeyObject.type keyObject = TypeString
            /\ KeyObject.required keyObject = true)
    (descriptors keyDictionary) ->
  composeMessageBody this = Ok body ->
  exists values,
    Forall2 bound_to (expand keyDictionary paramsList) values
    /\ fields body = map toString values
    /\ Forall (fun v => test_digits (toString v) = true) values.
Proof.
  intros Hs Hp Hall Hc. unfold composeMessageBody in Hc.
  rewrite Hs, Hp in Hc.
  apply for_keys_Ok in Hc as (values & Hv & ->).
  rewrite append_empty_l.
  assert (Forall2 (fun entry v =>
                     bound_to entry v /\ test_digits (toString v) = true)
            (expand keyDictionary paramsList) values) as Hboth.
  { assert (forall entry, In entry (expand keyDictionary paramsList) ->
                          KeyObject.type (fst entry) = TypeString
                          /\ KeyObject.required (fst entry) = true) as Hin.
    { intros entry H. apply expand_in_descriptors in H.
      rewrite Forall_forall in Hall. apply Hall.
      now apply list_elem_of_In. }
    revert Hin. induction Hv as [|entry v es vs He Hvs IH]; intros Hin;
      constructor.
    - destruct (Hin entry (or_introl eq_refl)) as (Ht & Hr).
      unfold extracts_to in He. unfold bound_to.
      destruct (snd entry !! KeyObject.key (fst entry)) as [value|] eqn:Hd.
      + rewrite (extract_present _ _ _ Hd), Ht in He.
        destruct (test_digits (toString value)) eqn:Hdig; [|discriminate].
        simpl in He.
        destruct (length_gt value (KeyObject.length (fst entry)));
          [discriminate|].
        injection He as <-. now split.
      + rewrite (extract_missing_required _ _ Hr Hd) in He. discriminate.
    - apply IH. intros e' H. apply Hin. now right. }
  exists values. split; [|split].
  - eapply Forall2_impl; [exact Hboth|]. now intros e v [H _].
  - apply fields_join_amp.
    apply (Forall2_Forall_r _ _ _ _ Hboth).
    apply Forall_forall. intros entry _ v [_ Hdig].
    apply test_digits_all_digits in Hdig as [Hdig _].
    now apply all_digits_no_amp.
  - apply (Forall2_Forall_r _ _ _ _ Hboth).
    apply Forall_forall. now intros entry _ v [_ Hdig].
Qed.

(** ** The headers of a constructed message *)

Lemma new_RegulatoryMessage_state now_message now_network clientConfig
    clientLogId functionCode paramsList this :
  new_RegulatoryMessage now_message now_network clientConfig clientLogId
    functionCode paramsList = Ok this ->
  exists keyDictionary body,
    api_request !! functionCode = Some keyDictionary
    /\ for_keys keyDictionary (Some paramsList) "" = Ok body
    /\ this
       = set_networkHead
           (networkHead_layout clientConfig
              (padString clientLogId 20 (Some "0"))
              (dateFormat now_network (dateTimeFormat clientConfig))
              (padString (body_byte_length body) 10 (Some "0")))
           (set_messageHead
              (messageHead_layout clientConfig functionCode
                 (padString clientLogId 20 (Some "0"))
                 (dateFormat now_message (dateTimeFormat clientConfig))
                 (padString (body_byte_length body) 8 (Some "0")))
              (set_messageBodyBuffer (gbkEncode body)
                 (this_after_line_69 clientConfig clientLogId functionCode
                    paramsList body))).
Proof.
  intros H.
  apply new_RegulatoryMessage_Ok in H as (keyDictionary & body & Hs & Hb & Hc).
  destruct (constructor_body_built now_message now_network clientConfig
              clientLogId functionCode paramsList keyDictionary body Hs Hb)
    as (_ & _ & Hc').
  rewrite Hc' in Hc. injection Hc as <-.
  now exists keyDictionary, body.
Qed.

Lemma substring_skip (a s : string) (n m : nat) :
  substring (String.length a + n) m (a +:+ s) = substring n m s.
Proof.
  induction a as [|c a IH]; [reflexivity|].
  rewrite append_cons. simpl. exact IH.
Qed.

Lemma substring_take (b c : string) :
  substring 0 (String.length b) (b +:+ c) = b.
Proof.
  induction b as [|x b IH].
  - simpl. now destruct c.
  - rewrite append_cons. simpl. now rewrite IH.
Qed.

Lemma substring_field (a b c : string) (n m : nat) :
  n = String.length a -> m = String.length b ->
  substring n m (a +:+ b +:+ c) = b.
Proof.
  intros -> ->.
  replace (String.length a) with (String.length a + 0) by lia.
  rewrite substring_skip. apply substring_take.
Qed.

(** X10: the headers of a constructed message have a width that depends
    on the client configuration, the function code and the rendered
    timestamps only: 70 characters (42 spaces, the 8-digit length, the
    20-character log id) plus the configured members for the message
    header, 190 plus the configured members for the network header. *)
Theorem X10_header_widths now_message now_network clientConfig clientLogId
    functionCode paramsList this :
  new_RegulatoryMessage now_message now_network clientConfig clientLogId
    functionCode paramsList = Ok this ->
  exists head head',
    _messageHead this = Some head
    /\ _networkHead this = Some head'
    /\ String.length head
       = String.length functionCode
         + String.length (serviceType clientConfig)
         + String.length (macAddress clientConfig)
         + String.length
             (dateFormat now_message (dateTimeFormat clientConfig))
         + String.length (defaultResponseCode clientConfig)
         + String.length (conFlag clientConfig)
         + String.length (countId clientConfig)
         + String.length (marketId clientConfig) + 70
    /\ String.length head'
       = String.length (marketId clientConfig)
         + String.length (countId clientConfig)
         + String.length (serviceType clientConfig)
         + String.length
             (dateFormat now_network (dateTimeFormat clientConfig))
         + String.length (defaultResponseCode clientConfig)
         + String.length (conFlag clientConfig) + 190.
Proof.
  intros H.
  apply new_RegulatoryMessage_state in H as (kd & body & _ & _ & ->).
  eexists _, _. split; [reflexivity|]. split; [reflexivity|].
  unfold messageHead_layout, networkHead_layout.
  rewrite !length_append, !length_copies, !length_padString.
  change (String.length " ") with 1. change (String.length "0") with 1.
  change (String.length "000") with 3.
  change (String.length "000000") with 6.
  change (String.length "A001130101") with 10.
  split; lia.
Qed.

(** X11: in the headers of a constructed message the fields sit at
    offsets given by the members before them: the 8-digit length and
    the 20-character log id of the message header, the 10-digit length
    and the log id of the network header are read back by [substring]
    at those offsets. *)
Theorem X11_header_fields_at_offsets now_message now_network clientConfig
    clientLogId functionCode paramsList this :
  new_RegulatoryMessage now_message now_network clientConfig clientLogId
    functionCode paramsList = Ok this ->
  exists body head head',
    _messageBody this = Some body
    /\ _messageHead this = Some head
    /\ _networkHead this = Some head'
    /\ substring
         (String.length functionCode
          + String.length (serviceType clientConfig)
          + String.length (macAddress clientConfig)
          + String.length
              (dateFormat now_message (dateTimeFormat clientConfig))
          + String.length (defaultResponseCode clientConfig) + 42
          + String.length (conFlag clientConfig))
         8 head
       = padString (body_byte_length body) 8 (Some "0")
    /\ substring
         (String.length functionCode
          + String.length (serviceType clientConfig)
          + String.length (macAddress clientConfig)
          + String.length
              (dateFormat now_message (dateTimeFormat clientConfig))
          + String.length (defaultResponseCode clientConfig) + 42
          + String.length (conFlag clientConfig) + 8
          + String.length (countId clientConfig))
         20 head
       = padString clientLogId 20 (Some "0")
    /\ substring (10 + String.length (marketId clientConfig) + 16) 10 head'
       = padString (body_byte_length body) 10 (Some "0")
    /\ substring
         (10 + String.length (marketId clientConfig) + 16 + 10 + 6
          + String.length (countId clientConfig)
          + String.length (serviceType clientConfig)
          + String.length
              (dateFormat now_network (dateTimeFormat clientConfig)))
         20 head'
       = padString clientLogId 20 (Some "0").
Proof.
  intros H.
  apply new_RegulatoryMessage_state in H as (kd & body & _ & _ & ->).
  eexists body, _, _.
  split; [reflexivity|]. split; [reflexivity|]. split; [reflexivity|].
  unfold messageHead_layout, networkHead_layout.
  split; [|split; [|split]].
  - match goal with
    | |- substring _ _ ?h = _ =>
        replace h with
          ((functionCode +:+ serviceType clientConfig
            +:+ macAddress clientConfig
            +:+ dateFormat now_message (dateTimeFormat clientConfig)
            +:+ defaultResponseCode clientConfig +:+ copies 42 " "
            +:+ conFlag clientConfig)
           +:+ padString (body_byte_length body) 8 (Some "0")
           +:+ (countId clientConfig +:+ padString clientLogId 20 (Some "0")
                +:+ marketId clientConfig))
          by (now rewrite !append_assoc)
    end.
    apply substring_field; [|now rewrite length_padString].
    rewrite !length_append, ?length_copies, ?length_padString.
    change (String.length " ") with 1.
    lia.
  - match goal with
    | |- substring _ _ ?h = _ =>
        replace h with
          ((functionCode +:+ serviceType clientConfig
            +:+ macAddress clientConfig
            +:+ dateFormat now_message (dateTimeFormat clientConfig)
            +:+ defaultResponseCode clientConfig +:+ copies 42 " "
            +:+ conFlag clientConfig
            +:+ padString (body_byte_length body) 8 (Some "0")
            +:+ countId clientConfig)
           +:+ padString clientLogId 20 (Some "0")
           +:+ marketId clientConfig)
          by (now rewrite !append_assoc)
    end.
    apply substring_field; [|now rewrite length_padString].
    rewrite !length_append, ?length_copies, ?length_padString.
    change (String.length " ") with 1.
    lia.
  - match goal with
    | |- substring _ _ ?h = _ =>
        replace h with
          (("A001130101" +:+ marketId clientConfig +:+ copies 16 " ")
           +:+ padString (body_byte_length body) 10 (Some "0")
           +:+ ("000000" +:+ countId clientConfig
               +:+ serviceType clientConfig
               +:+ dateFormat now_network (dateTimeFormat clientConfig)
               +:+ padString clientLogId 20 (Some "0")
               +:+ defaultResponseCode clientConfig +:+ copies 100 " "
               +:+ conFlag clientConfig +:+ "000" +:+ "0" +:+ "0"
               +:+ copies 12 " " +:+ copies 11 "0"))
          by (now rewrite !append_assoc)
    end.
    apply substring_field; [|now rewrite length_padString].
    rewrite !length_append, ?length_copies, ?length_padString.
    change (String.length " ") with 1.
    change (String.length "A001130101") with 10.
    lia.
  - match goal with
    | |- substring _ _ ?h = _ =>
        replace h with
          (("A001130101" +:+ marketId clientConfig +:+ copies 16 " "
            +:+ padString (body_byte_length body) 10 (Some "0")
            +:+ "000000" +:+ countId clientConfig
            +:+ serviceType clientConfig
            +:+ dateFormat now_network (dateTimeFormat clientConfig))
           +:+ padString clientLogId 20 (Some "0")
           +:+ (defaultResponseCode clientConfig +:+ copies 100 " "
               +:+ conFlag clientConfig +:+ "000" +:+ "0" +:+ "0"
               +:+ copies 12 " " +:+ copies 11 "0"))
          by (now rewrite !append_assoc)
    end.
    apply substring_field; [|now rewrite length_padString].
    rewrite !length_append, ?length_copies, ?length_padString.
    change (String.length " ") with 1.
    change (String.length "A001130101") with 10.
    change (String.length "000000") with 6.
    lia.
Qed.

(** ** Reading a constructed message *)

Lemma new_RegulatoryMessage_constructed now_message now_network clientConfig
    clientLogId functionCode paramsList this :
  new_RegulatoryMessage now_message now_network clientConfig clientLogId
    functionCode paramsList = Ok this ->
  exists body,
    constructed body this
    /\ _messageBody this = Some body
    /\ _clientConfig this = clientConfig
    /\ _functionCode this = functionCode
    /\ _clientLogId this = padString clientLogId 20 (Some "0")
    /\ _messageHead this
       = Some (messageHead_layout clientConfig functionCode
                 (padString clientLogId 20 (Some "0"))
                 (dateFormat now_message (dateTimeFormat clientConfig))
                 (padString (body_byte_length body) 8 (Some "0")))
    /\ _networkHead this
       = Some (networkHead_layout clientConfig
                 (padString clientLogId 20 (Some "0"))
                 (dateFormat now_network (dateTimeFormat clientConfig))
                 (padString (body_byte_length body) 10 (Some "0"))).
Proof.
  intros H. destruct (constructed_new _ _ _ _ _ _ _ H) as (body' & Hc).
  apply new_RegulatoryMessage_state in H as (kd & body & _ & _ & ->).
  pose proof Hc as ((_ & Hb & _) & _). simpl in Hb. injection Hb as <-.
  exists body. split; [exact Hc|]. repeat split.
Qed.

Lemma set_messageHead_id head this :
  _messageHead this = Some head -> set_messageHead head this = this.
Proof. destruct this; simpl; intros ->; reflexivity. Qed.

Lemma set_networkHead_id head this :
  _networkHead this = Some head -> set_networkHead head this = this.
Proof. destruct this; simpl; intros ->; reflexivity. Qed.

(** X12: on a constructed message the getters [messageBody] and
    [messageBodyBuffer] return the stored body and its encoding and
    leave the object as it is, so that any number of reads return the
    same. *)
Theorem X12_body_getters_return_stored_values now_message now_network
    clientConfig clientLogId functionCode paramsList this :
  new_RegulatoryMessage now_message now_network clientConfig clientLogId
    functionCode paramsList = Ok this ->
  exists body,
    _messageBody this = Some body
    /\ _messageBodyBuffer this = Some (gbkEncode body)
    /\ messageBody this = (Ok body, this)
    /\ messageBodyBuffer this = (Ok (gbkEncode body), this).
Proof.
  intros H.
  apply new_RegulatoryMessage_constructed in H as (body & Hc & Hb & _).
  exists body. split; [exact Hb|].
  split; [now destruct Hc as (_ & Hbuf & _)|].
  split; [now apply messageBody_constructed
         | now apply messageBodyBuffer_constructed].
Qed.

(** X13: on a constructed message the getters [messageHead] and
    [networkHead] return the header laid out anew with the timestamp of
    the read and the same length field and log id, and store it; a read
    whose timestamp renders as the one of the construction returns the
    stored header and leaves the object as it is. *)
Theorem X13_header_getters_recompose now_message now_network clientConfig
    clientLogId functionCode paramsList this now :
  new_RegulatoryMessage now_message now_network clientConfig clientLogId
    functionCode paramsList = Ok this ->
  exists body head head',
    _messageBody this = Some body
    /\ head = messageHead_layout clientConfig functionCode
                (padString clientLogId 20 (Some "0"))
                (dateFormat now (dateTimeFormat clientConfig))
                (padString (body_byte_length body) 8 (Some "0"))
    /\ head' = networkHead_layout clientConfig
                 (padString clientLogId 20 (Some "0"))
                 (dateFormat now (dateTimeFormat clientConfig))
                 (padString (body_byte_length body) 10 (Some "0"))
    /\ messageHead now this = (Ok (Some head), set_messageHead head this)
    /\ networkHead now this = (Ok (Some head'), set_networkHead head' this)
    /\ (dateFormat now (dateTimeFormat clientConfig)
        = dateFormat now_message (dateTimeFormat clientConfig) ->
        messageHead now this = (Ok (_messageHead this), this))
    /\ (dateFormat now (dateTimeFormat clientConfig)
        = dateFormat now_network (dateTimeFormat clientConfig) ->
        networkHead now this = (Ok (_networkHead this), this)).
Proof.
  intros H.
  apply new_RegulatoryMessage_constructed in H
    as (body & Hc & Hb & Hcfg & Hfc & Hid & Hh & Hn).
  destruct (messageHead_constructed now body this Hc) as (Hmh & _).
  destruct (networkHead_constructed now body this Hc) as (Hnh & _).
  cbv zeta in Hmh, Hnh. rewrite Hcfg, Hfc, Hid in Hmh. rewrite Hcfg, Hid in Hnh.
  eexists body, _, _.
  split; [exact Hb|]. split; [reflexivity|]. split; [reflexivity|].
  split; [exact Hmh|]. split; [exact Hnh|]. split.
  - intros E. rewrite Hmh, E, <- Hh. now rewrite set_messageHead_id.
  - intros E. rewrite Hnh, E, <- Hn. now rewrite set_networkHead_id.
Qed.

(** X14: the getter [buffer] of a constructed message returns the bytes
    of the network header, of the message header and of the encoded
    body, in this order and with nothing between or after them; the
    headers are those laid out at the instants of the read. *)
Theorem X14_buffer_is_headers_then_body now_message now_network clientConfig
    clientLogId functionCode paramsList this now_network' now_message' :
  new_RegulatoryMessage now_message now_network clientConfig clientLogId
    functionCode paramsList = Ok this ->
  exists body bytes,
    _messageBody this = Some body
    /\ fst (buffer now_network' now_message' this) = Ok bytes
    /\ bytes
       = Buffer_from
           (networkHead_layout clientConfig
              (padString clientLogId 20 (Some "0"))
              (dateFormat now_network' (dateTimeFormat clientConfig))
              (padString (body_byte_length body) 10 (Some "0")))
         ++ Buffer_from
              (messageHead_layout clientConfig functionCode
                 (padString clientLogId 20 (Some "0"))
                 (dateFormat now_message' (dateTimeFormat clientConfig))
                 (padString (body_byte_length body) 8 (Some "0")))
         ++ gbkEncode body
    /\ drop (length bytes - length (gbkEncode body)) bytes = gbkEncode body.
Proof.
  intros H.
  apply new_RegulatoryMessage_constructed in H
    as (body & Hc & Hb & Hcfg & Hfc & Hid & _).
  pose proof (buffer_constructed now_network' now_message' body this Hc)
    as Hbuf.
  rewrite Hcfg, Hfc, Hid in Hbuf.
  eexists body, _. split; [exact Hb|]. split; [exact Hbuf|].
  split; [reflexivity|].
  rewrite app_assoc, length_app.
  replace (length (Buffer_from _ ++ Buffer_from _) + length (gbkEncode body)
           - length (gbkEncode body))
    with (length (Buffer_from
                    (networkHead_layout clientConfig
                       (padString clientLogId 20 (Some "0"))
                       (dateFormat now_network' (dateTimeFormat clientConfig))
                       (padString (body_byte_length body) 10 (Some "0")))
                  ++ Buffer_from
                       (messageHead_layout clientConfig functionCode
                          (padString clientLogId 20 (Some "0"))
                          (dateFormat now_message'
                             (dateTimeFormat clientConfig))
                          (padString (body_byte_length body) 8 (Some "0")))))
    by lia.
  apply drop_app_length.
Qed.

(** ** RegulatoryClient *)

Lemma hasOwnProperty_true (dataObject : gmap string value) (k : string) :
  hasOwnProperty dataObject k = true <-> is_Some (dataObject !! k).
Proof.
  unfold hasOwnProperty. destruct (dataObject !! k) as [v|].
  - split; [intros _; now exists v | reflexivity].
  - split; [discriminate | intros [v Hv]; discriminate].
Qed.

Lemma length_toString_truthy (v : value) :
  truthy v = true -> 0 < String.length (toString v).
Proof.
  destruct v as [[|c s]|n]; simpl; [discriminate | lia |].
  intros _. pose proof (test_digits_numeral n) as H.
  apply test_digits_all_digits in H as [_ H]. exact H.
Qed.

Lemma length_or_default (x : option value) (d : string) :
  0 < String.length d -> 0 < String.length (or_default x d).
Proof.
  intros Hd. destruct x as [v|]; simpl; [|exact Hd].
  destruct (truthy v) eqn:Ht; [now apply length_toString_truthy | exact Hd].
Qed.

(** X15: the constructor of [RegulatoryClient] accepts a configuration
    exactly when it has the three keys port, server and marketId, and
    otherwise throws the cannot-initialize error, the only error it
    throws. *)
Theorem X15_client_needs_port_server_marketId (config : gmap string value) :
  ((exists clientConfig, RegulatoryClient_constructor config = Ok clientConfig)
   <-> is_Some (config !! "port") /\ is_Some (config !! "server")
       /\ is_Some (config !! "marketId"))
  /\ (forall e,
         RegulatoryClient_constructor config = Throw e ->
         e = Error CannotInitialize_message).
Proof.
  unfold RegulatoryClient_constructor.
  rewrite <- !hasOwnProperty_true.
  destruct (hasOwnProperty config "port"),
    (hasOwnProperty config "server"),
    (hasOwnProperty config "marketId"); simpl;
    (split; [split; [intros [c Hc]; (discriminate || tauto)
                    | intros (H1 & H2 & H3);
                      (discriminate || eauto)]
            | intros e He; (discriminate || now injection He as <-)]).
Qed.

(** X16: in the configuration an accepted client stores, the market id
    is the caller's, and each of the six members that have a default
    (service type, MAC address, date-time format, response code,
    connection flag, count id) is the string form of the caller's value
    when that value is truthy and the default otherwise, hence never
    empty. *)
Theorem X16_client_configuration_members (config : gmap string value)
    (clientConfig : ClientConfig) :
  RegulatoryClient_constructor config = Ok clientConfig ->
  (exists v, config !! "marketId" = Some v
             /\ marketId clientConfig = toString v)
  /\ (serviceType clientConfig = or_default (config !! "serviceType") "01"
      /\ 0 < String.length (serviceType clientConfig))
  /\ (macAddress clientConfig
      = or_default (config !! "macAddress") (copies 16 " ")
      /\ 0 < String.length (macAddress clientConfig))
  /\ (dateTimeFormat clientConfig
      = or_default (config !! "dateTimeFormat") "yyyyMMddHHmmss"
      /\ 0 < String.length (dateTimeFormat clientConfig))
  /\ (defaultResponseCode clientConfig
      = or_default (config !! "defaultResponseCode") "999999"
      /\ 0 < String.length (defaultResponseCode clientConfig))
  /\ (conFlag clientConfig = or_default (config !! "conFlag") "0"
      /\ 0 < String.length (conFlag clientConfig))
  /\ (countId clientConfig = or_default (config !! "countId") "PA001"
      /\ 0 < String.length (countId clientConfig)).
Proof.
  unfold RegulatoryClient_constructor.
  destruct (hasOwnProperty config "port" && hasOwnProperty config "server"
            && hasOwnProperty config "marketId") eqn:Hk; simpl;
    [|discriminate].
  intros [= <-]. simpl.
  apply andb_prop in Hk as [_ Hm].
  apply hasOwnProperty_true in Hm as [v Hv].
  split; [exists v; now rewrite Hv|].
  repeat split; try (apply length_or_default; simpl; lia).
Qed.

(** X17: [sendMessage] asks the pool for a connection only once the
    message is constructed, and throws the constructor's error, with
    nothing done, when the constructor throws.  Run with an error of
    the pool, the handler passes that error to the callback and writes
    nothing.  Run with a connection, it writes the bytes of the network
    header, of the message header and of the encoded body, the headers
    laid out at the instants of the write, then logs and installs the
    two handlers. *)
Theorem X17_sendMessage_writes_the_buffer now_message now_network
    clientConfig clientLogId functionCode paramsList :
  (forall e,
      sendMessage now_message now_network clientConfig clientLogId
        functionCode paramsList = Throw e
      <-> new_RegulatoryMessage now_message now_network clientConfig
            clientLogId functionCode paramsList = Throw e)
  /\ (forall message effects,
         sendMessage now_message now_network clientConfig clientLogId
           functionCode paramsList = Ok (message, effects) ->
         effects = [pool_pull]
         /\ new_RegulatoryMessage now_message now_network clientConfig
              clientLogId functionCode paramsList = Ok message
         /\ (forall err now_network' now_message',
                pull_handler (Some err) now_network' now_message' message
                = (Ok [callback_error err], message))
         /\ (forall now_network' now_message',
                exists body,
                  _messageBody message = Some body
                  /\ fst (pull_handler None now_network' now_message' message)
                     = Ok [connection_write
                             (Buffer_from
                                (networkHead_layout clientConfig
                                   (padString clientLogId 20 (Some "0"))
                                   (dateFormat now_network'
                                      (dateTimeFormat clientConfig))
                                   (padString (body_byte_length body) 10
                                      (Some "0")))
                              ++ Buffer_from
                                   (messageHead_layout clientConfig
                                      functionCode
                                      (padString clientLogId 20 (Some "0"))
                                      (dateFormat now_message'
                                         (dateTimeFormat clientConfig))
                                      (padString (body_byte_length body) 8
                                         (Some "0")))
                              ++ gbkEncode body);
                           console_log "Connection Initialized";
                           connection_on "data";
                           connection_on "end"])).
Proof.
  unfold sendMessage.
  destruct (new_RegulatoryMessage now_message now_network clientConfig
              clientLogId functionCode paramsList) as [this|e0] eqn:H; simpl.
  - split; [intros e; split; discriminate|].
    intros message effects [= <- <-].
    split; [reflexivity|]. split; [reflexivity|].
    split; [reflexivity|].
    intros now_network' now_message'.
    apply new_RegulatoryMessage_constructed in H
      as (body & Hc & Hb & Hcfg & Hfc & Hid & _).
    pose proof (buffer_constructed now_network' now_message' body this Hc)
      as Hbuf.
    rewrite Hcfg, Hfc, Hid in Hbuf.
    exists body. split; [exact Hb|].
    unfold pull_handler.
    destruct (buffer now_network' now_message' this) as [r this'].
    simpl in Hbuf. now rewrite Hbuf.
  - split; [intros e; split; intros [= <-]; reflexivity|].
    intros message effects. discriminate.
Qed.

End Message.

(** ** Evaluation on the sample instances *)

Local Abbreviation new_sample :=
  (new_RegulatoryMessage N Sample.dateFormat Sample.gbkEncode
     Sample.api_request).
Local Abbreviation body_sample functionCode paramsList :=
  (composeMessageBody Sample.api_request
     (set_paramsList paramsList
        (this_after_line_62 Sample.clientConfig (VStr "42") functionCode))).
Local Abbreviation noon := 20240101120000%N.

Example body_of_0001 :
  body_sample "0001" (Sample.paramsList [("amt", VStr "500")] None)
  = Ok "500&".
Proof. reflexivity. Qed.

Example body_of_0003 :
  body_sample "0003"
    (Sample.paramsList [("acct", VNum 12); ("amt", VStr "500")]
       (Some [Sample.params [("id", VStr "1")];
              Sample.params [("id", VStr "2"); ("qty", VNum 3)]]))
  = Ok "12&500&1&none&2&3&".
Proof. reflexivity. Qed.

Lemma C1_witness :
  exists this keyDictionary body,
    new_sample noon (noon + 1)%N Sample.clientConfig (VStr "42") "0001"
      (Sample.paramsList [("amt", VStr "500")] None) = Ok this
    /\ Sample.api_request !! "0001" = Some keyDictionary
    /\ _messageBody this = Some body
    /\ _messageBodyBuffer this = Some (Sample.gbkEncode body)
    /\ _messageHead this
       = Some (messageHead_layout Sample.clientConfig "0001"
                 (padString (VStr "42") 20 (Some "0"))
                 (Sample.dateFormat noon "yyyyMMddHHmmss")
                 (padString (body_byte_length Sample.gbkEncode body) 8
                    (Some "0")))
    /\ _networkHead this
       = Some (networkHead_layout Sample.clientConfig
                 (padString (VStr "42") 20 (Some "0"))
                 (Sample.dateFormat (noon + 1)%N "yyyyMMddHHmmss")
                 (padString (body_byte_length Sample.gbkEncode body) 10
                    (Some "0"))).
Proof.
  assert (exists this,
             new_sample noon (noon + 1)%N Sample.clientConfig (VStr "42")
               "0001" (Sample.paramsList [("amt", VStr "500")] None)
             = Ok this) as [this H] by (eexists; reflexivity).
  destruct (C1_header_lengths_match_encoded_body N Sample.dateFormat
              Sample.gbkEncode Sample.api_request _ _ _ _ _ _ _ H)
    as (keyDictionary & body & Hs & _ & Hb & Hbuf & _ & Hh & Hn & _).
  exists this, keyDictionary, body. repeat split; assumption.
Defined.

Lemma C2_witness :
  exists values,
    body_sample "0003"
      (Sample.paramsList [("acct", VNum 12); ("amt", VStr "500")]
         (Some [Sample.params [("id", VStr "1")];
                Sample.params [("id", VStr "2"); ("qty", VNum 3)]]))
    = Ok "12&500&1&none&2&3&"
    /\ "12&500&1&none&2&3&" = join_amp values
    /\ length values = 6
    /\ (Forall (fun v => no_amp (toString v) = true) values ->
        fields "12&500&1&none&2&3&" = map toString values
        /\ length (fields "12&500&1&none&2&3&") = 6).
Proof.
  destruct (C2_body_is_values_each_followed_by_amp Sample.api_request
              (set_paramsList
                 (Sample.paramsList [("acct", VNum 12); ("amt", VStr "500")]
                    (Some [Sample.params [("id", VStr "1")];
                           Sample.params [("id", VStr "2"); ("qty", VNum 3)]]))
                 (this_after_line_62 Sample.clientConfig (VStr "42") "0003"))
              [Scalar Sample.acct; Scalar Sample.amt;
               Group [Sample.id; Sample.qty]]
              _ "12&500&1&none&2&3&" eq_refl eq_refl eq_refl)
    as (values & _ & Hjoin & Hlen & Hfields).
  exists values. split; [reflexivity|].
  split; [exact Hjoin|]. split; [exact Hlen|exact Hfields].
Defined.

(** C2 as stated fails: a value that contains '&' adds a field. *)
Lemma C2_counterexample :
  Sample.api_request !! "0002" = Some [Scalar Sample.memo; Scalar Sample.unit_]
  /\ body_sample "0002"
       (Sample.paramsList [("memo", VStr "a&b"); ("unit", VStr "m")] None)
     = Ok "a&b&m&"
  /\ fields "a&b&m&" = ["a"; "b"; "m"]
  /\ entry_count [Scalar Sample.memo; Scalar Sample.unit_]
       (Sample.paramsList [("memo", VStr "a&b"); ("unit", VStr "m")] None)
     = 2
  /\ length (fields "a&b&m&")
     <> entry_count [Scalar Sample.memo; Scalar Sample.unit_]
          (Sample.paramsList [("memo", VStr "a&b"); ("unit", VStr "m")] None).
Proof.
  split; [reflexivity|]. split; [reflexivity|]. split; [reflexivity|].
  split; [reflexivity|]. vm_compute. discriminate.
Qed.

Lemma C3_witness :
  Sample.api_request !! "9999" = None
  /\ new_sample noon noon Sample.clientConfig (VStr "42") "9999"
       (Sample.paramsList [("amt", VStr "500")] None)
     = Throw UnknownFunctionCode.
Proof.
  split; [reflexivity|].
  apply (C3_unknown_function_code_throws N Sample.dateFormat Sample.gbkEncode
           Sample.api_request noon noon Sample.clientConfig (VStr "42")
           "9999" (Sample.paramsList [("amt", VStr "500")] None) eq_refl).
Defined.

(** C4: reading [messageHead] (or [networkHead]) of one constructed
    message at two instants returns two different headers, neither of
    them the header stored by the constructor. *)
Theorem C4_header_getters_reread_the_clock :
  exists this this' this'',
    new_sample noon noon Sample.clientConfig (VStr "42") "0001"
      (Sample.paramsList [("amt", VStr "500")] None) = Ok this
    /\ _messageHead this
       = Some "000101                20240101120000999999                                          000000004PA001000000000000000000423066"
    /\ messageHead N Sample.dateFormat Sample.gbkEncode Sample.api_request
         (noon + 1)%N this
       = (Ok (Some "000101                20240101120001999999                                          000000004PA001000000000000000000423066"),
          this')
    /\ messageHead N Sample.dateFormat Sample.gbkEncode Sample.api_request
         (noon + 2)%N this'
       = (Ok (Some "000101                20240101120002999999                                          000000004PA001000000000000000000423066"),
          this'')
    /\ fst (networkHead N Sample.dateFormat Sample.gbkEncode
              Sample.api_request (noon + 1)%N this)
       <> fst (networkHead N Sample.dateFormat Sample.gbkEncode
                 Sample.api_request (noon + 2)%N this)
    /\ fst (messageBody Sample.api_request this)
       = fst (messageBody Sample.api_request
                (snd (messageBody Sample.api_request this)))
    /\ fst (messageBodyBuffer Sample.gbkEncode Sample.api_request this)
       = fst (messageBodyBuffer Sample.gbkEncode Sample.api_request
                (snd (messageBodyBuffer Sample.gbkEncode Sample.api_request
                        this))).
Proof.
  eexists _, _, _.
  split; [reflexivity|]. split; [reflexivity|]. split; [reflexivity|].
  split; [reflexivity|]. split; [vm_compute; discriminate|].
  split; reflexivity.
Qed.

(** C5: for a required key that is absent [extract] throws the
    missing-key error, and its message is the text of lines 84-85 as it
    stands between the single quotes, the same for every key and every
    function code.  On schema 0001 without [amt], and on schema 0004
    with a list entry without [id], the constructor throws that one
    message, in which neither the key nor the function code occurs. *)
Theorem C5_missing_key_message_names_neither_key_nor_code :
  MissingKey_message
  = "[PINGAN] Missing key ${keyObject.key} for function ${self._functionCode}"
  /\ (forall keyObject dataObject,
         KeyObject.required keyObject = true ->
         dataObject !! KeyObject.key keyObject = None ->
         extract keyObject dataObject = Throw (Error MissingKey_message))
  /\ new_sample noon noon Sample.clientConfig (VStr "42") "0001"
       (Sample.paramsList [] None)
     = Throw (Error MissingKey_message)
  /\ includes "amt" MissingKey_message = false
  /\ includes "0001" MissingKey_message = false
  /\ new_sample noon noon Sample.clientConfig (VStr "42") "0004"
       (Sample.paramsList [] (Some [Sample.params [("qty", VStr "2")]]))
     = Throw (Error MissingKey_message)
  /\ includes "0004" MissingKey_message = false.
Proof.
  split; [reflexivity|].
  split; [intros keyObject dataObject Hr Hd;
          unfold extract, hasOwnProperty; now rewrite Hr, Hd|].
  repeat split.
Qed.

Lemma C5_witness :
  KeyObject.required Sample.amt = true
  /\ Sample.params [("acct", VStr "12")] !! KeyObject.key Sample.amt = None
  /\ extract Sample.amt (Sample.params [("acct", VStr "12")])
     = Throw (Error MissingKey_message).
Proof.
  split; [reflexivity|]. split; [reflexivity|].
  destruct C5_missing_key_message_names_neither_key_nor_code
    as (_ & Hx & _).
  apply Hx; reflexivity.
Defined.



Lemma C7_witness :
  exists this,
    new_sample noon noon Sample.clientConfig (VStr "42") "0001"
      (Sample.paramsList [("amt", VStr "500")] None) = Ok this
    /\ _clientLogId this = padString (VStr "42") 20 (Some "0")
    /\ String.length (_clientLogId this) = 20
    /\ _clientLogId this = "00000000000000000042".
Proof.
  assert (exists this,
             new_sample noon noon Sample.clientConfig (VStr "42") "0001"
               (Sample.paramsList [("amt", VStr "500")] None) = Ok this)
    as [this H] by (eexists; reflexivity).
  destruct (C7_clientLogId_has_20_characters N Sample.dateFormat
              Sample.gbkEncode Sample.api_request _ _ _ _ _ _ _ H)
    as (Hid & Hlen & Hshort & _).
  exists this. split; [exact H|]. split; [exact Hid|]. split; [exact Hlen|].
  apply Hshort. simpl. lia.
Defined.

Lemma C8_witness :
  padString (VStr "abc") 3 None = "abc"
  /\ String.length (padString (VNum 1234567890123) 10 (Some "0")) = 10
  /\ (exists dropped,
         toString (VNum 1234567890123)
         = dropped +:+ padString (VNum 1234567890123) 10 (Some "0"))
  /\ padString (VNum 7) 3 (Some "xy") = copies 2 "x" +:+ "7".
Proof.
  destruct C8_padString_fixed_width as (Heq & Hlong & Hshort & _).
  split; [apply Heq; reflexivity|].
  destruct (Hlong (VNum 1234567890123) 10 (Some "0")) as (Hlen & Hsuffix);
    [simpl; lia|].
  split; [exact Hlen|]. split; [exact Hsuffix|].
  apply (Hshort (VNum 7) 3 "x"%char "y"). simpl. lia.
Defined.


Lemma C10_witness :
  Sample.api_request !! "0003"
  = Some [Scalar Sample.acct; Scalar Sample.amt;
          Group [Sample.id; Sample.qty]]
  /\ new_sample noon noon Sample.clientConfig (VStr "42") "0003"
       (Sample.paramsList [("acct", VStr "12"); ("amt", VStr "500")] None)
     = Throw TypeError.
Proof.
  split; [reflexivity|].
  destruct (C10_group_without_list_throws N Sample.dateFormat
              Sample.gbkEncode Sample.api_request noon noon
              Sample.clientConfig (VStr "42") "0003"
              (Sample.paramsList [("acct", VStr "12"); ("amt", VStr "500")]
                 None)
              [Scalar Sample.acct; Scalar Sample.amt;
               Group [Sample.id; Sample.qty]]
              eq_refl
              (ex_intro _ [Sample.id; Sample.qty]
                 (or_intror (or_intror (or_introl eq_refl))))
              eq_refl) as (_ & Hgroup & _).
  apply (Hgroup [Scalar Sample.acct; Scalar Sample.amt]
           [Sample.id; Sample.qty] [] "12&500&");
    reflexivity.
Defined.

(** C10 as stated fails: a scalar entry before the group that throws
    first gives its own error, one of the specified kinds. *)
Lemma C10_counterexample :
  Sample.api_request !! "0003"
  = Some [Scalar Sample.acct; Scalar Sample.amt;
          Group [Sample.id; Sample.qty]]
  /\ ParamsList.list (Sample.paramsList [] None) = None
  /\ new_sample noon noon Sample.clientConfig (VStr "42") "0003"
       (Sample.paramsList [] None)
     = Throw MissingRequiredField
  /\ MissingRequiredField <> TypeError.
Proof.
  split; [reflexivity|]. split; [reflexivity|]. split; [reflexivity|].
  discriminate.
Qed.

(** The bytes of a message read at the instant of its construction:
    network header, message header and encoded body in a row. *)
Example buffer_of_0001 :
  exists this,
    new_sample noon noon Sample.clientConfig (VStr "42") "0001"
      (Sample.paramsList [("amt", VStr "500")] None) = Ok this
    /\ fst (buffer N Sample.dateFormat Sample.gbkEncode Sample.Buffer_from
              Sample.api_request noon noon this)
       = Ok (Sample.Buffer_from
               "A0011301013066                0000000004000000PA001012024010112000000000000000000000042999999                                                                                                    000000            00000000000"
             ++ Sample.Buffer_from
                  "000101                20240101120000999999                                          000000004PA001000000000000000000423066"
             ++ Sample.gbkEncode "500&").
Proof. eexists. split; reflexivity. Qed.

(** ** The further properties on the sample instances *)

Lemma X2_witness :
  8 <= 20
  /\ padString (VStr (padString (VNum 42) 20 (Some "0"))) 8 (Some "x")
     = padString (VNum 42) 8 (Some "0").
Proof.
  split; [lia|].
  apply (X2_padString_twice (VNum 42) 20 8 (Some "0") (Some "x")). lia.
Defined.




Lemma X6_witness :
  body_sample "0003"
    (Sample.paramsList [("acct", VNum 12); ("amt", VStr "500")]
       (Some [Sample.params [("id", VStr "1")]]))
  = Ok "12&500&1&none&"
  <-> exists values,
      Forall2 extracts_to
        (expand [Scalar Sample.acct; Scalar Sample.amt;
                 Group [Sample.id; Sample.qty]]
           (Sample.paramsList [("acct", VNum 12); ("amt", VStr "500")]
              (Some [Sample.params [("id", VStr "1")]])))
        values
      /\ "12&500&1&none&" = join_amp values.
Proof.
  apply (X6_body_built_iff_all_entries_extract Sample.api_request
           (set_paramsList
              (Sample.paramsList [("acct", VNum 12); ("amt", VStr "500")]
                 (Some [Sample.params [("id", VStr "1")]]))
              (this_after_line_62 Sample.clientConfig (VStr "42") "0003")));
    [reflexivity | reflexivity | left; eexists; reflexivity].
Defined.

Lemma X7_witness :
  body_sample "0003"
    (Sample.paramsList [("acct", VNum 12)]
       (Some [Sample.params [("id", VStr "1")]]))
  = Throw MissingRequiredField.
Proof.
  apply (X7_body_throws_error_of_first_refused_entry Sample.api_request
           (set_paramsList
              (Sample.paramsList [("acct", VNum 12)]
                 (Some [Sample.params [("id", VStr "1")]]))
              (this_after_line_62 Sample.clientConfig (VStr "42") "0003"))
           [Scalar Sample.acct; Scalar Sample.amt;
            Group [Sample.id; Sample.qty]]
           (Sample.paramsList [("acct", VNum 12)]
              (Some [Sample.params [("id", VStr "1")]]))
           MissingRequiredField eq_refl eq_refl
           (or_introl (ex_intro _ _ eq_refl))).
  exists [(Sample.acct, Sample.params [("acct", VNum 12)])],
    (Sample.amt, Sample.params [("acct", VNum 12)]),
    [(Sample.id, Sample.params [("id", VStr "1")]);
     (Sample.qty, Sample.params [("id", VStr "1")])],
    [VNum 12].
  split; [reflexivity|]. split; [repeat constructor | reflexivity].
Defined.

Lemma X8_witness :
  new_sample noon noon Sample.clientConfig (VStr "42") "9999"
    (Sample.paramsList [] None) = Throw UnknownFunctionCode
  /\ new_sample noon noon Sample.clientConfig (VStr "42") "0003"
       (Sample.paramsList [("acct", VStr "12")] None)
     = Throw MissingRequiredField
  /\ exists keyDictionary entry,
      Sample.api_request !! "0003" = Some keyDictionary
      /\ In entry
           (expand keyDictionary
              (Sample.paramsList [("acct", VStr "12")] None))
      /\ extract (fst entry) (snd entry) = Throw MissingRequiredField.
Proof.
  split.
  - apply (X8_constructor_failures N Sample.dateFormat Sample.gbkEncode
             Sample.api_request noon noon Sample.clientConfig (VStr "42")
             "9999" (Sample.paramsList [] None)).
    reflexivity.
  - split; [reflexivity|].
    destruct (X8_constructor_failures N Sample.dateFormat Sample.gbkEncode
                Sample.api_request noon noon Sample.clientConfig (VStr "42")
                "0003" (Sample.paramsList [("acct", VStr "12")] None))
      as (_ & Hother).
    apply (Hother MissingRequiredField eq_refl);
      [intros [= H]; vm_compute in H; discriminate | discriminate].
Defined.

Lemma X9_witness :
  exists values,
    Forall2 bound_to
      (expand [Scalar Sample.amt]
         (Sample.paramsList [("amt", VStr "500")] None)) values
    /\ fields "500&" = map toString values
    /\ Forall (fun v => test_digits (toString v) = true) values.
Proof.
  apply (X9_digit_schema_body_reads_back Sample.api_request
           (set_paramsList (Sample.paramsList [("amt", VStr "500")] None)
              (this_after_line_62 Sample.clientConfig (VStr "42") "0001"))
           [Scalar Sample.amt]
           (Sample.paramsList [("amt", VStr "500")] None) "500&");
    [reflexivity | reflexivity | repeat constructor | reflexivity].
Defined.

Lemma X10_witness :
  exists this head head',
    new_sample noon noon Sample.clientConfig (VStr "42") "0001"
      (Sample.paramsList [("amt", VStr "500")] None) = Ok this
    /\ _messageHead this = Some head
    /\ _networkHead this = Some head'
    /\ String.length head = 122
    /\ String.length head' = 222.
Proof.
  assert (exists this,
             new_sample noon noon Sample.clientConfig (VStr "42") "0001"
               (Sample.paramsList [("amt", VStr "500")] None) = Ok this)
    as [this H] by (eexists; reflexivity).
  destruct (X10_header_widths N Sample.dateFormat Sample.gbkEncode
              Sample.api_request _ _ _ _ _ _ _ H)
    as (head & head' & Hh & Hn & Lh & Ln).
  exists this, head, head'.
  split; [exact H|]. split; [exact Hh|]. split; [exact Hn|].
  split; [rewrite Lh | rewrite Ln]; reflexivity.
Defined.

Lemma X11_witness :
  exists this head head',
    new_sample noon noon Sample.clientConfig (VStr "42") "0001"
      (Sample.paramsList [("amt", VStr "500")] None) = Ok this
    /\ _messageHead this = Some head
    /\ _networkHead this = Some head'
    /\ substring 85 8 head = "00000004"
    /\ substring 98 20 head = "00000000000000000042"
    /\ substring 30 10 head' = "0000000004"
    /\ substring 67 20 head' = "00000000000000000042".
Proof.
  assert (exists this,
             new_sample noon noon Sample.clientConfig (VStr "42") "0001"
               (Sample.paramsList [("amt", VStr "500")] None) = Ok this
             /\ _messageBody this = Some "500&")
    as (this & H & Hm) by (eexists; split; reflexivity).
  destruct (X11_header_fields_at_offsets N Sample.dateFormat Sample.gbkEncode
              Sample.api_request _ _ _ _ _ _ _ H)
    as (body & head & head' & Hb & Hh & Hn & F1 & F2 & F3 & F4).
  rewrite Hm in Hb. injection Hb as <-.
  exists this, head, head'.
  split; [exact H|]. split; [exact Hh|]. split; [exact Hn|].
  split; [exact F1|]. split; [exact F2|]. split; [exact F3 | exact F4].
Defined.

Lemma X12_witness :
  exists this,
    new_sample noon noon Sample.clientConfig (VStr "42") "0001"
      (Sample.paramsList [("amt", VStr "500")] None) = Ok this
    /\ messageBody Sample.api_request this = (Ok "500&", this)
    /\ messageBodyBuffer Sample.gbkEncode Sample.api_request this
       = (Ok (Sample.gbkEncode "500&"), this).
Proof.
  assert (exists this,
             new_sample noon noon Sample.clientConfig (VStr "42") "0001"
               (Sample.paramsList [("amt", VStr "500")] None) = Ok this
             /\ _messageBody this = Some "500&")
    as (this & H & Hm) by (eexists; split; reflexivity).
  destruct (X12_body_getters_return_stored_values N Sample.dateFormat
              Sample.gbkEncode Sample.api_request _ _ _ _ _ _ _ H)
    as (body & Hb & _ & Hget & Hbuf).
  rewrite Hm in Hb. injection Hb as <-.
  exists this. split; [exact H|]. split; [exact Hget | exact Hbuf].
Defined.

Lemma X13_witness :
  exists this,
    new_sample noon (noon + 1)%N Sample.clientConfig (VStr "42") "0001"
      (Sample.paramsList [("amt", VStr "500")] None) = Ok this
    /\ messageHead N Sample.dateFormat Sample.gbkEncode Sample.api_request
         noon this
       = (Ok (_messageHead this), this)
    /\ networkHead N Sample.dateFormat Sample.gbkEncode Sample.api_request
         (noon + 1)%N this
       = (Ok (_networkHead this), this).
Proof.
  assert (exists this,
             new_sample noon (noon + 1)%N Sample.clientConfig (VStr "42")
               "0001" (Sample.paramsList [("amt", VStr "500")] None)
             = Ok this)
    as (this & H) by (eexists; reflexivity).
  exists this. split; [exact H|]. split.
  - destruct (X13_header_getters_recompose N Sample.dateFormat
                Sample.gbkEncode Sample.api_request _ _ _ _ _ _ _ noon H)
      as (body & head & head' & _ & _ & _ & _ & _ & Hsame & _).
    apply Hsame. reflexivity.
  - destruct (X13_header_getters_recompose N Sample.dateFormat
                Sample.gbkEncode Sample.api_request _ _ _ _ _ _ _
                (noon + 1)%N H)
      as (body & head & head' & _ & _ & _ & _ & _ & _ & Hsame).
    apply Hsame. reflexivity.
Defined.

Lemma X14_witness :
  exists this bytes,
    new_sample noon noon Sample.clientConfig (VStr "42") "0001"
      (Sample.paramsList [("amt", VStr "500")] None) = Ok this
    /\ fst (buffer N Sample.dateFormat Sample.gbkEncode Sample.Buffer_from
              Sample.api_request (noon + 5)%N (noon + 5)%N this) = Ok bytes
    /\ drop (length bytes - length (Sample.gbkEncode "500&")) bytes
       = Sample.gbkEncode "500&".
Proof.
  assert (exists this,
             new_sample noon noon Sample.clientConfig (VStr "42") "0001"
               (Sample.paramsList [("amt", VStr "500")] None) = Ok this
             /\ _messageBody this = Some "500&")
    as (this & H & Hm) by (eexists; split; reflexivity).
  destruct (X14_buffer_is_headers_then_body N Sample.dateFormat
              Sample.gbkEncode Sample.Buffer_from Sample.api_request
              _ _ _ _ _ _ _ (noon + 5)%N (noon + 5)%N H)
    as (body & bytes & Hb & Hbuf & _ & Htail).
  rewrite Hm in Hb. injection Hb as <-.
  exists this, bytes. split; [exact H|]. split; [exact Hbuf | exact Htail].
Defined.

Lemma X15_witness :
  (exists clientConfig,
      RegulatoryClient_constructor SampleClient.config = Ok clientConfig)
  /\ RegulatoryClient_constructor SampleClient.no_server
     = Throw (Error "[PINGAN] Cannot initialize retulatory client.").
Proof.
  split.
  - apply (X15_client_needs_port_server_marketId SampleClient.config).
    repeat split; eexists; reflexivity.
  - destruct (RegulatoryClient_constructor SampleClient.no_server)
      as [c|e] eqn:H; [discriminate|].
    f_equal.
    apply (X15_client_needs_port_server_marketId SampleClient.no_server).
    exact H.
Defined.

Lemma X16_witness :
  exists clientConfig,
    RegulatoryClient_constructor SampleClient.config = Ok clientConfig
    /\ marketId clientConfig = "3066"
    /\ countId clientConfig = "PA001"
    /\ 0 < String.length (serviceType clientConfig).
Proof.
  assert (exists clientConfig,
             RegulatoryClient_constructor SampleClient.config
             = Ok clientConfig)
    as (clientConfig & H) by (eexists; reflexivity).
  destruct (X16_client_configuration_members _ _ H)
    as ((v & Hv & Hm) & (_ & Hs) & _ & _ & _ & _ & (Hc & _)).
  exists clientConfig. split; [exact H|].
  split; [|split; [exact Hc | exact Hs]].
  rewrite Hm. injection Hv as <-. reflexivity.
Defined.

Lemma X17_witness :
  sendMessage N Sample.dateFormat Sample.gbkEncode Sample.api_request string
    noon noon Sample.clientConfig (VStr "42") "9999"
    (Sample.paramsList [("amt", VStr "500")] None)
  = Throw UnknownFunctionCode
  /\ exists message,
      sendMessage N Sample.dateFormat Sample.gbkEncode Sample.api_request
        string noon noon Sample.clientConfig (VStr "42") "0001"
        (Sample.paramsList [("amt", VStr "500")] None)
      = Ok (message, [pool_pull string])
      /\ pull_handler N Sample.dateFormat Sample.gbkEncode
           Sample.Buffer_from Sample.api_request string
           (Some "ETIMEDOUT") (noon + 5)%N (noon + 5)%N message
         = (Ok [callback_error string "ETIMEDOUT"], message)
      /\ fst (pull_handler N Sample.dateFormat Sample.gbkEncode
                Sample.Buffer_from Sample.api_request string None
                (noon + 5)%N (noon + 5)%N message)
         = Ok [connection_write string
                 (Sample.Buffer_from
                    (networkHead_layout Sample.clientConfig
                       "00000000000000000042" "20240101120005" "0000000004")
                  ++ Sample.Buffer_from
                       (messageHead_layout Sample.clientConfig "0001"
                          "00000000000000000042" "20240101120005" "00000004")
                  ++ Sample.gbkEncode "500&");
               console_log string "Connection Initialized";
               connection_on string "data";
               connection_on string "end"].
Proof.
  split.
  - apply (X17_sendMessage_writes_the_buffer N Sample.dateFormat
             Sample.gbkEncode Sample.Buffer_from Sample.api_request string
             noon noon Sample.clientConfig (VStr "42") "9999"
             (Sample.paramsList [("amt", VStr "500")] None)).
    reflexivity.
  - assert (exists message,
               sendMessage N Sample.dateFormat Sample.gbkEncode
                 Sample.api_request string noon noon Sample.clientConfig
                 (VStr "42") "0001"
                 (Sample.paramsList [("amt", VStr "500")] None)
               = Ok (message, [pool_pull string])
               /\ _messageBody message = Some "500&")
      as (message & H & Hm) by (eexists; split; reflexivity).
    destruct (X17_sendMessage_writes_the_buffer N Sample.dateFormat
                Sample.gbkEncode Sample.Buffer_from Sample.api_request string
                noon noon Sample.clientConfig (VStr "42") "0001"
                (Sample.paramsList [("amt", VStr "500")] None))
      as (_ & Hok).
    destruct (Hok message _ H) as (_ & _ & Herr & Hwrite).
    destruct (Hwrite (noon + 5)%N (noon + 5)%N) as (body & Hb & Hw).
    rewrite Hm in Hb. injection Hb as <-.
    exists message. split; [exact H|]. split; [apply Herr | exact Hw].
Defined.
